(** * GuppShupp: memory extraction and personality engine

    A shallow embedding of the Python services of the repository
    (services/llm_client.py, services/memory_extractor.py,
    services/personality_engine.py and the pydantic models they build) and
    of the two endpoints of its first version (app.py), together with the
    properties of its specification.

    Conventions of the embedding.
    - Text is a [string] of bytes.  The Python [str] methods used by the code
      ([strip], [upper], [lower], [in]) are modelled on ASCII text; bytes
      above 127 are left untouched by them.
    - A Python float is kept by its exact value: every binary64 number is a
      rational, so [FFin q] stands for a finite float of value [q].  A
      decimal literal, in a JSON text or in the source, denotes the binary64
      number nearest to it.
    - A raised exception is a value of [exn]; a call that may raise returns a
      [result].  The coroutines of the services await one call after the
      other, and are computations that thread the list of the calls made to
      the model.
    - Wall-clock readings (created_at, updated_at, processing_timestamp) and
      logging are left out. *)

From Stdlib Require Import ZArith QArith Qround List String Ascii Bool Lia.
From Stdlib Require Import DecimalString.
Import ListNotations.

Open Scope string_scope.
Open Scope Z_scope.

(* ------------------------------------------------------------------ *)
(** ** Python strings *)

Module PyStr.

Definition nl : string := String (ascii_of_nat 10) EmptyString.
Definition dq : string := String (ascii_of_nat 34) EmptyString.

Definition code (c : ascii) : nat := nat_of_ascii c.

(** [str.isspace] on the ASCII range: TAB..CR, FS..US and the blank. *)
Definition is_space (c : ascii) : bool :=
  let n := code c in
  ((9 <=? n) && (n <=? 13) || (28 <=? n) && (n <=? 32))%nat.

Fixpoint mem (c : ascii) (cs : string) : bool :=
  match cs with
  | EmptyString => false
  | String d cs' => Ascii.eqb c d || mem c cs'
  end.

Fixpoint lstrip_by (p : ascii -> bool) (s : string) : string :=
  match s with
  | EmptyString => EmptyString
  | String c s' => if p c then lstrip_by p s' else s
  end.

Fixpoint rstrip_by (p : ascii -> bool) (s : string) : string :=
  match s with
  | EmptyString => EmptyString
  | String c s' =>
      match rstrip_by p s' with
      | EmptyString => if p c then EmptyString else String c EmptyString
      | r => String c r
      end
  end.

Definition strip_by (p : ascii -> bool) (s : string) : string :=
  rstrip_by p (lstrip_by p s).

(** [s.strip()] *)
Definition strip (s : string) : string := strip_by is_space s.

(** [s.strip(chars)]: [chars] is a set of characters, not a prefix. *)
Definition strip_chars (chars s : string) : string :=
  strip_by (fun c => mem c chars) s.

Definition upper_char (c : ascii) : ascii :=
  let n := code c in
  if ((97 <=? n) && (n <=? 122))%nat then ascii_of_nat (n - 32) else c.

Definition lower_char (c : ascii) : ascii :=
  let n := code c in
  if ((65 <=? n) && (n <=? 90))%nat then ascii_of_nat (n + 32) else c.

Fixpoint map_chars (f : ascii -> ascii) (s : string) : string :=
  match s with
  | EmptyString => EmptyString
  | String c s' => String (f c) (map_chars f s')
  end.

Definition upper : string -> string := map_chars upper_char.
Definition lower : string -> string := map_chars lower_char.

(** [needle in hay] *)
Fixpoint contains (needle hay : string) : bool :=
  String.prefix needle hay ||
  match hay with
  | EmptyString => false
  | String _ hay' => contains needle hay'
  end.

(** [sep.join(parts)] *)
Fixpoint join (sep : string) (parts : list string) : string :=
  match parts with
  | [] => EmptyString
  | [p] => p
  | p :: rest => p ++ sep ++ join sep rest
  end.

(** [str(n)] for a natural number. *)
Definition of_nat (n : nat) : string := NilZero.string_of_uint (Nat.to_uint n).

(** Truthiness of a string: [if s:]. *)
Definition truthy (s : string) : bool :=
  match s with EmptyString => false | _ => true end.

(** [s[:n]] *)
Definition take (n : nat) (s : string) : string := String.substring 0 n s.

End PyStr.

(* ------------------------------------------------------------------ *)
(** ** Exceptions and results *)

Inductive builtin_exn : Type :=
  | TypeError | AttributeError | KeyError | IndexError | ValueError
  | JSONDecodeError | ValidationError.

(** What [LLMClient.generate_response] reports. *)
Inductive llm_failure : Type :=
  | RequestTimedOut                       (* "Request timed out" *)
  | ConnectionFailed                      (* "Connection failed" *)
  | ApiError (status : Z)                 (* "API error: <status>" *)
  | InvalidResponseFormat                 (* "Invalid response format" *)
  | UnexpectedError (cause : builtin_exn + string).
                                          (* "Unexpected error: <cause>" *)

(** The exception classes of the services carry a message made of a fixed
    prefix followed by [str(e)] of the exception they wrap. *)
Inductive exn : Type :=
  | Builtin (b : builtin_exn)
  | Exception (msg : string)
  | LLMClientError (f : llm_failure)
  | MemoryExtractionError (prefix : string) (cause : exn)
  | PersonalityEngineError (prefix : string) (cause : exn).

Inductive result (A : Type) : Type :=
  | Ok (a : A)
  | Raise (e : exn).
Arguments Ok {A} a.
Arguments Raise {A} e.

Definition rbind {A B} (r : result A) (k : A -> result B) : result B :=
  match r with
  | Ok a => k a
  | Raise e => Raise e
  end.

(** [try: body except Exception as e: raise wrap(e)] *)
Definition reraise {A} (wrap : exn -> exn) (r : result A) : result A :=
  match r with
  | Ok a => Ok a
  | Raise e => Raise (wrap e)
  end.

Definition is_ok {A} (r : result A) : bool :=
  match r with Ok _ => true | Raise _ => false end.

Declare Scope result_scope.
Delimit Scope result_scope with result.
Notation "x <- c ;; k" := (rbind c (fun x => k))
  (at level 61, c at next level, right associativity) : result_scope.

(* ------------------------------------------------------------------ *)
(** ** Values produced by [json.loads] *)

#[local] Set Warnings "-register-all".

Inductive pyfloat : Type :=
  | FFin (q : Q)
  | FInf (negative : bool)
  | FNaN.

Inductive json : Type :=
  | JNull
  | JBool (b : bool)
  | JInt (n : Z)
  | JFloat (f : pyfloat)
  | JStr (s : string)
  | JList (l : list json)
  | JDict (kvs : list (string * json)).

Definition dict : Type := list (string * json).

Module PyDict.

(** [d[k]] / [d.get(k)] *)
Fixpoint get (k : string) (d : dict) : option json :=
  match d with
  | [] => None
  | (k', v) :: d' => if String.eqb k k' then Some v else get k d'
  end.

(** [d[k] = v]: an existing key keeps its position. *)
Fixpoint set (k : string) (v : json) (d : dict) : dict :=
  match d with
  | [] => [(k, v)]
  | (k', v') :: d' =>
      if String.eqb k k' then (k, v) :: d' else (k', v') :: set k v d'
  end.

(** [k in d] *)
Definition has (k : string) (d : dict) : bool :=
  match get k d with Some _ => true | None => false end.

End PyDict.

(* ------------------------------------------------------------------ *)
(** ** [json.loads]

    The decoder of the Python standard library, as a scanner that turns the
    text into tokens and a stack machine that assembles the value.  Both run
    by structural recursion on their input, so decoding is total. *)

Module JsonLoads.

(** *** Number literals *)

(** Nearest integer, ties to even. *)
Definition round_half_even (q : Q) : Z :=
  let f := Qfloor q in
  match Qcompare (q - inject_Z f) (1 # 2) with
  | Lt => f
  | Gt => f + 1
  | Eq => if Z.even f then f else f + 1
  end.

(** [floor (log2 a)] for [a > 0]. *)
Definition ilog2 (a : Q) : Z :=
  let e0 := Z.log2 (Qnum a) - Z.log2 (Zpos (Qden a)) in
  if Qle_bool (Qpower 2 e0) a then e0 else e0 - 1.

(** Rounding of a non-negative rational to binary64. *)
Definition binary64_abs (a : Q) : option Q :=
  if Qeq_bool a 0 then Some 0%Q
  else
    let ex := Z.max (ilog2 a - 52) (-1074) in
    let m := round_half_even (a / Qpower 2 ex) in
    let v := (inject_Z m * Qpower 2 ex)%Q in
    if Qle_bool (Qpower 2 1024) v then None else Some v.

(** [float(text)] of a JSON number literal [(-1)^neg * mant * 10^e10]. *)
Definition float_of_decimal (neg : bool) (mant : Z) (e10 : Z) : pyfloat :=
  match binary64_abs (inject_Z mant * Qpower 10 e10) with
  | Some v => FFin (if neg then - v else v)
  | None => FInf neg
  end.

(** The float a decimal literal [mant * 10^e10] of the source denotes. *)
Definition float_literal (mant : Z) (e10 : Z) : pyfloat :=
  float_of_decimal (mant <? 0) (Z.abs mant) e10.

(** *** Scanner *)

Inductive token : Type :=
  | TLBrace | TRBrace | TLBracket | TRBracket | TComma | TColon
  | TVal (v : json).

(** A number under construction: sign, digits read so far (integer and
    fraction together), number of fraction digits, exponent sign and
    digits. *)
Record num : Type := mkNum {
  n_neg : bool;
  n_mant : Z;
  n_frac : Z;
  n_eneg : bool;
  n_exp : Z
}.

Inductive numstate : Type :=
  | NSign      (* after '-': a digit or Infinity must follow *)
  | NZero      (* after a leading 0 *)
  | NInt       (* inside the integer digits *)
  | NDot       (* after '.': a digit must follow *)
  | NFrac      (* inside the fraction digits *)
  | NE         (* after 'e': a sign or a digit must follow *)
  | NESign     (* after the exponent sign: a digit must follow *)
  | NExp.      (* inside the exponent digits *)

Inductive lex : Type :=
  | LStart
  | LLit (rest : string) (v : json)
  | LNum (st : numstate) (n : num)
  | LStr (acc : list ascii) (high : option N)
  | LEsc (acc : list ascii) (high : option N)
  | LUni (acc : list ascii) (high : option N) (k : nat) (u : N).

Definition is_ws (c : ascii) : bool :=
  let n := nat_of_ascii c in
  ((n =? 32) || (n =? 9) || (n =? 10) || (n =? 13))%nat.

Definition digit (c : ascii) : option Z :=
  let n := nat_of_ascii c in
  if ((48 <=? n) && (n <=? 57))%nat then Some (Z.of_nat (n - 48)) else None.

Definition hexdigit (c : ascii) : option N :=
  let n := nat_of_ascii c in
  if ((48 <=? n) && (n <=? 57))%nat then Some (N.of_nat (n - 48))
  else if ((65 <=? n) && (n <=? 70))%nat then Some (N.of_nat (n - 55))
  else if ((97 <=? n) && (n <=? 102))%nat then Some (N.of_nat (n - 87))
  else None.

Definition byte (n : N) : ascii := ascii_of_N n.

(** UTF-8 bytes of a code point (a lone surrogate is encoded like any
    other three-byte code point). *)
Definition utf8 (u : N) : list ascii :=
  (if u <? 128 then [byte u]
   else if u <? 2048 then [byte (192 + u / 64); byte (128 + u mod 64)]
   else if u <? 65536 then
     [byte (224 + u / 4096); byte (128 + (u / 64) mod 64);
      byte (128 + u mod 64)]
   else
     [byte (240 + u / 262144); byte (128 + (u / 4096) mod 64);
      byte (128 + (u / 64) mod 64); byte (128 + u mod 64)])%N.

Definition is_high (u : N) : bool := ((55296 <=? u) && (u <=? 56319))%N.
Definition is_low (u : N) : bool := ((56320 <=? u) && (u <=? 57343))%N.

(** Characters are accumulated in reverse. *)
Definition flush (acc : list ascii) (high : option N) : list ascii :=
  match high with
  | Some h => (rev (utf8 h) ++ acc)%list
  | None => acc
  end.

(** A complete [\uXXXX] escape of value [u]. *)
Definition add_unit (acc : list ascii) (high : option N) (u : N) : lex :=
  match high with
  | Some h =>
      if is_low u
      then LStr (rev (utf8 (65536 + (h - 55296) * 1024 + (u - 56320))%N) ++ acc)%list
                None
      else if is_high u then LStr (flush acc high) (Some u)
      else LStr (rev (utf8 u) ++ flush acc high)%list None
  | None =>
      if is_high u then LStr acc (Some u) else LStr (rev (utf8 u) ++ acc)%list None
  end.

Definition num0 (neg : bool) (d : Z) : num := mkNum neg d 0 false 0.

Definition num_value (n : num) (is_float : bool) : json :=
  if is_float
  then JFloat (float_of_decimal (n_neg n) (n_mant n)
                 ((if n_eneg n then - n_exp n else n_exp n) - n_frac n))
  else JInt (if n_neg n then - n_mant n else n_mant n).

(** The value of a number whose text ends in state [st], if it may end
    there. *)
Definition num_end (st : numstate) (n : num) : option json :=
  match st with
  | NZero | NInt => Some (num_value n false)
  | NFrac | NExp => Some (num_value n true)
  | NSign | NDot | NE | NESign => None
  end.

(** A step from the start state: the new state and the tokens emitted. *)
Definition start_step (c : ascii) : option (lex * list token) :=
  if is_ws c then Some (LStart, [])
  else match c with
  | "{"%char => Some (LStart, [TLBrace])
  | "}"%char => Some (LStart, [TRBrace])
  | "["%char => Some (LStart, [TLBracket])
  | "]"%char => Some (LStart, [TRBracket])
  | ","%char => Some (LStart, [TComma])
  | ":"%char => Some (LStart, [TColon])
  | "n"%char => Some (LLit "ull" JNull, [])
  | "t"%char => Some (LLit "rue" (JBool true), [])
  | "f"%char => Some (LLit "alse" (JBool false), [])
  | "N"%char => Some (LLit "aN" (JFloat FNaN), [])
  | "I"%char => Some (LLit "nfinity" (JFloat (FInf false)), [])
  | "-"%char => Some (LNum NSign (num0 true 0), [])
  | "0"%char => Some (LNum NZero (num0 false 0), [])
  | _ =>
      if nat_of_ascii c =? 34 then Some (LStr [] None, [])
      else match digit c with
           | Some d => Some (LNum NInt (num0 false d), [])
           | None => None
           end
  end%nat.

Definition push_digit (n : num) (d : Z) : num :=
  mkNum (n_neg n) (10 * n_mant n + d) (n_frac n) (n_eneg n) (n_exp n).
Definition push_frac (n : num) (d : Z) : num :=
  mkNum (n_neg n) (10 * n_mant n + d) (n_frac n + 1) (n_eneg n) (n_exp n).
Definition push_exp (n : num) (d : Z) : num :=
  mkNum (n_neg n) (n_mant n) (n_frac n) (n_eneg n) (10 * n_exp n + d).
Definition set_eneg (n : num) : num :=
  mkNum (n_neg n) (n_mant n) (n_frac n) true (n_exp n).

Definition is_e (c : ascii) : bool :=
  (Ascii.eqb c "e" || Ascii.eqb c "E")%char.

(** The number ends before [c]: emit it and scan [c] afresh. *)
Definition num_close (st : numstate) (n : num) (c : ascii)
  : option (lex * list token) :=
  match num_end st n, start_step c with
  | Some v, Some (l, ts) => Some (l, TVal v :: ts)
  | _, _ => None
  end.

Definition num_step (st : numstate) (n : num) (c : ascii)
  : option (lex * list token) :=
  match st, digit c with
  | NSign, Some d =>
      Some (LNum (if d =? 0 then NZero else NInt) (push_digit n d), [])
  | NSign, None =>
      if Ascii.eqb c "I" then Some (LLit "nfinity" (JFloat (FInf true)), [])
      else None
  | NZero, Some _ => None
  | NInt, Some d => Some (LNum NInt (push_digit n d), [])
  | (NZero | NInt), None =>
      if Ascii.eqb c "." then Some (LNum NDot n, [])
      else if is_e c then Some (LNum NE n, [])
      else num_close st n c
  | (NDot | NFrac), Some d => Some (LNum NFrac (push_frac n d), [])
  | NDot, None => None
  | NFrac, None =>
      if is_e c then Some (LNum NE n, []) else num_close st n c
  | (NE | NESign | NExp), Some d => Some (LNum NExp (push_exp n d), [])
  | NE, None =>
      if Ascii.eqb c "-" then Some (LNum NESign (set_eneg n), [])
      else if Ascii.eqb c "+" then Some (LNum NESign n, [])
      else None
  | NESign, None => None
  | NExp, None => num_close st n c
  end.

Definition esc_char (c : ascii) : option ascii :=
  match c with
  | "/"%char => Some "/"%char
  | "\"%char => Some "\"%char
  | "b"%char => Some (ascii_of_nat 8)
  | "f"%char => Some (ascii_of_nat 12)
  | "n"%char => Some (ascii_of_nat 10)
  | "r"%char => Some (ascii_of_nat 13)
  | "t"%char => Some (ascii_of_nat 9)
  | _ => if (nat_of_ascii c =? 34)%nat then Some c else None
  end.

Definition lex_step (l : lex) (c : ascii) : option (lex * list token) :=
  match l with
  | LStart => start_step c
  | LLit rest v =>
      match rest with
      | String d EmptyString =>
          if Ascii.eqb c d then Some (LStart, [TVal v]) else None
      | String d rest' =>
          if Ascii.eqb c d then Some (LLit rest' v, []) else None
      | EmptyString => None
      end
  | LNum st n => num_step st n c
  | LStr acc high =>
      if (nat_of_ascii c =? 34)%nat
      then Some (LStart,
                 [TVal (JStr (string_of_list_ascii (rev (flush acc high))))])
      else if Ascii.eqb c "\" then Some (LEsc acc high, [])
      else if (nat_of_ascii c <? 32)%nat then None
      else Some (LStr (c :: flush acc high) None, [])
  | LEsc acc high =>
      if Ascii.eqb c "u" then Some (LUni acc high 3 0%N, [])
      else match esc_char c with
           | Some d => Some (LStr (d :: flush acc high) None, [])
           | None => None
           end
  | LUni acc high k u =>
      match hexdigit c with
      | Some h =>
          match k with
          | O => Some (add_unit acc high (16 * u + h)%N, [])
          | S k' => Some (LUni acc high k' (16 * u + h)%N, [])
          end
      | None => None
      end
  end.

(** At the end of the text only a number may be under way. *)
Definition lex_end (l : lex) : option (list token) :=
  match l with
  | LStart => Some []
  | LNum st n =>
      match num_end st n with
      | Some v => Some [TVal v]
      | None => None
      end
  | _ => None
  end.

Fixpoint scan (l : lex) (s : string) : option (list token) :=
  match s with
  | EmptyString => lex_end l
  | String c s' =>
      match lex_step l c with
      | Some (l', ts) =>
          match scan l' s' with
          | Some ts' => Some (ts ++ ts')%list
          | None => None
          end
      | None => None
      end
  end.

(** *** Assembling the value *)

(** An open container: the elements of an array read so far (latest
    first), or the members of an object read so far and the key whose
    value is awaited. *)
Inductive frame : Type :=
  | FArr (done : list json)
  | FObj (done : dict) (key : string).

Inductive expect : Type :=
  | EValue          (* a value *)
  | EArrFirst       (* a value or ']' *)
  | EObjFirst       (* a key or '}' *)
  | EKey            (* a key *)
  | EColon          (* ':' *)
  | ESep            (* ',' or the closing bracket *)
  | EEnd (v : json) (* the end of the text *).

Definition pstate : Type := (list frame * expect)%type.

(** A value is complete: it goes into the innermost open container. *)
Definition push_value (st : list frame) (v : json) : pstate :=
  match st with
  | [] => ([], EEnd v)
  | FArr done :: st' => (FArr (v :: done) :: st', ESep)
  | FObj done k :: st' => (FObj (PyDict.set k v done) k :: st', ESep)
  end.

Definition open_value (st : list frame) (t : token) : option pstate :=
  match t with
  | TVal v => Some (push_value st v)
  | TLBracket => Some (FArr [] :: st, EArrFirst)
  | TLBrace => Some (FObj [] EmptyString :: st, EObjFirst)
  | _ => None
  end.

Definition set_key (st : list frame) (t : token) : option pstate :=
  match t, st with
  | TVal (JStr k), FObj done _ :: st' => Some (FObj done k :: st', EColon)
  | _, _ => None
  end.

Definition parse_step (ps : pstate) (t : token) : option pstate :=
  let (st, e) := ps in
  match e with
  | EValue => open_value st t
  | EArrFirst =>
      match t, st with
      | TRBracket, FArr _ :: st' => Some (push_value st' (JList []))
      | _, _ => open_value st t
      end
  | EObjFirst =>
      match t, st with
      | TRBrace, FObj _ _ :: st' => Some (push_value st' (JDict []))
      | _, _ => set_key st t
      end
  | EKey => set_key st t
  | EColon =>
      match t with
      | TColon => Some (st, EValue)
      | _ => None
      end
  | ESep =>
      match t, st with
      | TComma, FArr _ :: _ => Some (st, EValue)
      | TComma, FObj _ _ :: _ => Some (st, EKey)
      | TRBracket, FArr done :: st' => Some (push_value st' (JList (rev done)))
      | TRBrace, FObj done _ :: st' => Some (push_value st' (JDict done))
      | _, _ => None
      end
  | EEnd _ => None
  end.

Fixpoint parse (ps : pstate) (ts : list token) : option json :=
  match ts with
  | [] => match ps with
          | ([], EEnd v) => Some v
          | _ => None
          end
  | t :: ts' =>
      match parse_step ps t with
      | Some ps' => parse ps' ts'
      | None => None
      end
  end.

(** [json.loads(s)]; [None] stands for [JSONDecodeError]. *)
Definition loads (s : string) : option json :=
  match scan LStart s with
  | Some ts => parse ([], EValue) ts
  | None => None
  end.

End JsonLoads.

(* ------------------------------------------------------------------ *)
(** ** pydantic fields

    A [str] field takes a JSON string and a [float] field a JSON number.
    What pydantic makes of a value of another type (a number given for a
    [str] field, a boolean or a numeric string given for a [float] field)
    differs between its versions and is a parameter of the development. *)

Class Pydantic : Type := {
  lax_str : json -> option string;
  lax_float : json -> option pyfloat
}.

(** pydantic accepting the field's own JSON type only. *)
Definition strict_pydantic : Pydantic :=
  {| lax_str := fun _ => None; lax_float := fun _ => None |}.

Module Field.
Section Field.
Context {P : Pydantic}.

Definition str (v : json) : option string :=
  match v with
  | JStr s => Some s
  | _ => lax_str v
  end.

(** [float(n)] of a Python int. *)
Definition float_of_int (n : Z) : pyfloat :=
  JsonLoads.float_of_decimal (n <? 0) (Z.abs n) 0.

Definition float (v : json) : option pyfloat :=
  match v with
  | JFloat f => Some f
  | JInt n => Some (float_of_int n)
  | _ => lax_float v
  end.

(** [v >= 0] and [v <= 1] on floats. *)
Definition ge0 (f : pyfloat) : bool :=
  match f with
  | FFin q => Qle_bool 0 q
  | FInf negative => negb negative
  | FNaN => false
  end.

Definition le1 (f : pyfloat) : bool :=
  match f with
  | FFin q => Qle_bool q 1
  | FInf negative => negative
  | FNaN => false
  end.

(** [float = Field(ge=0, le=1)]: the value is at least 0 and at most 1,
    which NaN is not. *)
Definition unit_float (v : json) : option pyfloat :=
  match float v with
  | Some f => if ge0 f && le1 f then Some f else None
  | None => None
  end.

Fixpoint all_str (l : list json) : option (list string) :=
  match l with
  | [] => Some []
  | v :: l' =>
      match str v, all_str l' with
      | Some s, Some ss => Some (s :: ss)
      | _, _ => None
      end
  end.

(** A field without default: [Field(...)]. *)
Definition required {A} (validate : json -> option A) (k : string) (d : dict)
  : option A :=
  match PyDict.get k d with
  | Some v => validate v
  | None => None
  end.

(** [Optional[str] = Field(None)] *)
Definition optional_str (k : string) (d : dict) : option (option string) :=
  match PyDict.get k d with
  | None | Some JNull => Some None
  | Some v => option_map Some (str v)
  end.

(** [List[str] = Field(default_factory=list)] *)
Definition list_str (k : string) (d : dict) : option (list string) :=
  match PyDict.get k d with
  | None => Some []
  | Some (JList l) => all_str l
  | Some _ => None
  end.

End Field.
End Field.

(** A model built from keyword arguments, [Model(double-star data)]: [data] must be
    a mapping, and every field must validate. *)
Definition construct {A} (validate : dict -> option A) (data : json)
  : result A :=
  match data with
  | JDict d =>
      match validate d with
      | Some a => Ok a
      | None => Raise (Builtin ValidationError)
      end
  | _ => Raise (Builtin TypeError)
  end.

(* ------------------------------------------------------------------ *)
(** ** models/memory_models.py *)

Inductive PreferenceType : Type :=
  | COMMUNICATION | CONTENT | BEHAVIOR | EMOTIONAL
  | SOCIAL | PROFESSIONAL | LIFESTYLE | TECHNICAL.

Module PreferenceType_.

Definition all : list PreferenceType :=
  [COMMUNICATION; CONTENT; BEHAVIOR; EMOTIONAL;
   SOCIAL; PROFESSIONAL; LIFESTYLE; TECHNICAL].

Definition value (c : PreferenceType) : string :=
  match c with
  | COMMUNICATION => "communication"
  | CONTENT => "content"
  | BEHAVIOR => "behavior"
  | EMOTIONAL => "emotional"
  | SOCIAL => "social"
  | PROFESSIONAL => "professional"
  | LIFESTYLE => "lifestyle"
  | TECHNICAL => "technical"
  end.

Definition eqb (a b : PreferenceType) : bool :=
  String.eqb (value a) (value b).

(** [PreferenceType(v)] *)
Definition validate (v : json) : option PreferenceType :=
  match v with
  | JStr s => find (fun c => String.eqb s (value c)) all
  | _ => None
  end.

End PreferenceType_.

Module EmotionalPattern.
Section EmotionalPattern.
Context {P : Pydantic}.

Record t : Type := mk {
  pattern : string;
  frequency : pyfloat;
  triggers : list string;
  intensity : string;
  context : option string
}.

Definition allowed : list string := ["low"; "medium"; "high"].

(** [@validator('intensity')] *)
Definition validate_intensity (v : string) : option string :=
  if existsb (String.eqb v) allowed then Some v else None.

Definition intensity_field (v : json) : option string :=
  match Field.str v with
  | Some s => validate_intensity s
  | None => None
  end.

Definition validate (d : dict) : option t :=
  match Field.required Field.str "pattern" d,
        Field.required Field.unit_float "frequency" d,
        Field.list_str "triggers" d,
        Field.required intensity_field "intensity" d,
        Field.optional_str "context" d with
  | Some p, Some f, Some tr, Some i, Some c => Some (mk p f tr i c)
  | _, _, _, _, _ => None
  end.

(** The constructor call on [pattern_data]. *)
Definition new : json -> result t := construct validate.

End EmotionalPattern.
End EmotionalPattern.

Module UserPreference.
Section UserPreference.
Context {P : Pydantic}.

Record t : Type := mk {
  category : PreferenceType;
  value : string;
  confidence : pyfloat;
  context : option string;
  examples : list string
}.

Definition validate (d : dict) : option t :=
  match Field.required PreferenceType_.validate "category" d,
        Field.required Field.str "value" d,
        Field.required Field.unit_float "confidence" d,
        Field.optional_str "context" d,
        Field.list_str "examples" d with
  | Some c, Some v, Some f, Some x, Some e => Some (mk c v f x e)
  | _, _, _, _, _ => None
  end.

(** The constructor call on [pref_data]. *)
Definition new : json -> result t := construct validate.

End UserPreference.
End UserPreference.

Module UserFact.
Section UserFact.
Context {P : Pydantic}.

Record t : Type := mk {
  fact_type : string;
  value : string;
  confidence : pyfloat;
  source_context : option string;
  temporal_relevance : option string
}.

Definition validate (d : dict) : option t :=
  match Field.required Field.str "fact_type" d,
        Field.required Field.str "value" d,
        Field.required Field.unit_float "confidence" d,
        Field.optional_str "source_context" d,
        Field.optional_str "temporal_relevance" d with
  | Some ft, Some v, Some f, Some sc, Some tr => Some (mk ft v f sc tr)
  | _, _, _, _, _ => None
  end.

(** The constructor call on [fact_data]. *)
Definition new : json -> result t := construct validate.

End UserFact.
End UserFact.

Module UserMemory.

Record t : Type := mk {
  user_id : option string;
  preferences : list (PreferenceType * list UserPreference.t);
  emotional_patterns : list EmotionalPattern.t;
  facts : list UserFact.t;
  message_count : Z;
  analysis_version : string
}.

(** [memory.message_count = n] *)
Definition set_message_count (n : Z) (m : t) : t :=
  mk (user_id m) (preferences m) (emotional_patterns m) (facts m) n
     (analysis_version m).

End UserMemory.

Record MemoryExtractionRequest : Type := {
  messages : list (list (string * string));
  user_id : option string;
  analysis_depth : string
}.

(* ------------------------------------------------------------------ *)
(** ** Calls to the model

    The services receive their client by injection and await
    [llm_client.generate_response] one call after the other.  A client is
    any function from the calls made so far and the present call to a reply
    or an exception; a computation of the services threads the list of calls
    made. *)

Record LLMRequest : Type := {
  system_prompt : string;
  user_prompt : string;
  temperature : option pyfloat;
  max_tokens : option Z;
  model : option string
}.

Module LLM.

Definition client : Type := list LLMRequest -> LLMRequest -> result string.

Definition M (A : Type) : Type :=
  list LLMRequest -> result A * list LLMRequest.

Definition ret {A} (a : A) : M A := fun calls => (Ok a, calls).

Definition raise {A} (e : exn) : M A := fun calls => (Raise e, calls).

Definition lift {A} (r : result A) : M A := fun calls => (r, calls).

Definition bind {A B} (m : M A) (k : A -> M B) : M B :=
  fun calls =>
    match m calls with
    | (Ok a, calls') => k a calls'
    | (Raise e, calls') => (Raise e, calls')
    end.

(** [try: m except Exception as e: handler(e)] *)
Definition try_except {A} (m : M A) (handler : exn -> M A) : M A :=
  fun calls =>
    match m calls with
    | (Ok a, calls') => (Ok a, calls')
    | (Raise e, calls') => handler e calls'
    end.

(** [await llm_client.generate_response(...)] *)
Definition call (llm : client) (rq : LLMRequest) : M string :=
  fun calls => (llm calls rq, (calls ++ [rq])%list).

(** The outcome of a computation started before any call. *)
Definition run {A} (m : M A) : result A := fst (m []).
Definition calls_of {A} (m : M A) : list LLMRequest := snd (m []).

End LLM.

Declare Scope llm_scope.
Delimit Scope llm_scope with llm.
Notation "x <- c ;; k" := (LLM.bind c (fun x => k))
  (at level 61, c at next level, right associativity) : llm_scope.

(** The float literals 0.3, 0.5, 0.7, 0.85 and 0.88 of the call sites. *)
Definition f_0_3 : pyfloat := JsonLoads.float_literal 3 (-1).
Definition f_0_5 : pyfloat := JsonLoads.float_literal 5 (-1).
Definition f_0_7 : pyfloat := JsonLoads.float_literal 7 (-1).
Definition f_0_85 : pyfloat := JsonLoads.float_literal 85 (-2).
Definition f_0_88 : pyfloat := JsonLoads.float_literal 88 (-2).

(* ------------------------------------------------------------------ *)
(** ** Python values *)

Module Py.

(** [d.get(k, default)] on a [Dict[str, str]] *)
Fixpoint get_str (k default : string) (d : list (string * string)) : string :=
  match d with
  | [] => default
  | (k', v) :: d' => if String.eqb k k' then v else get_str k default d'
  end.

(** [v.get(k, default)]: only a dict has the method. *)
Definition get (k : string) (default : json) (v : json) : result json :=
  match v with
  | JDict d =>
      Ok (match PyDict.get k d with Some x => x | None => default end)
  | _ => Raise (Builtin AttributeError)
  end.

(** The items a [for] loop over [v] visits. *)
Definition iter (v : json) : result (list json) :=
  match v with
  | JList l => Ok l
  | JStr s =>
      Ok (map (fun c => JStr (String c EmptyString)) (list_ascii_of_string s))
  | JDict d => Ok (map (fun kv => JStr (fst kv)) d)
  | _ => Raise (Builtin TypeError)
  end.

(** [bool(v)] *)
Definition truthy (v : json) : bool :=
  match v with
  | JNull => false
  | JBool b => b
  | JInt n => negb (n =? 0)
  | JFloat (FFin q) => negb (Qeq_bool q 0)
  | JFloat _ => true
  | JStr s => PyStr.truthy s
  | JList l => match l with [] => false | _ => true end
  | JDict d => match d with [] => false | _ => true end
  end.

(** [a or b] on optional values with a truthiness test. *)
Definition or_else {A} (truthy : A -> bool) (a : option A) (b : A) : A :=
  match a with
  | Some x => if truthy x then x else b
  | None => b
  end.

End Py.

(* ------------------------------------------------------------------ *)
(** ** services/memory_extractor.py *)

Module MemoryExtractor.
Import PyStr.

(** [_setup_system_prompts] *)
Definition memory_extraction_prompt : string :=
("You are an expert AI psychologist and data analyst specializing in extracting structured user memory from chat conversations.

Your task is to analyze the provided chat messages and extract three types of information:

1. USER PREFERENCES: What the user likes, dislikes, prefers, or tends to do
2. EMOTIONAL PATTERNS: How the user expresses emotions, common emotional states, triggers
3. FACTS: Personal information, background details, important events, or contextual information

For each extraction, provide:
- High confidence (0.8-1.0): Directly stated or clearly implied
- Medium confidence (0.5-0.8): Reasonably inferred but not explicit
- Low confidence (0.3-0.5): Possible but uncertain

Return your analysis in this exact JSON format:

{
    " ++ dq ++ "preferences" ++ dq ++ ": [
        {
            " ++ dq ++ "category" ++ dq ++ ": " ++ dq ++ "communication|content|behavior|emotional|social|professional|lifestyle|technical" ++ dq ++ ",
            " ++ dq ++ "value" ++ dq ++ ": " ++ dq ++ "specific preference description" ++ dq ++ ",
            " ++ dq ++ "confidence" ++ dq ++ ": 0.85,
            " ++ dq ++ "context" ++ dq ++ ": " ++ dq ++ "brief context from messages" ++ dq ++ ",
            " ++ dq ++ "examples" ++ dq ++ ": [" ++ dq ++ "relevant quote 1" ++ dq ++ ", " ++ dq ++ "relevant quote 2" ++ dq ++ "]
        }
    ],
    " ++ dq ++ "emotional_patterns" ++ dq ++ ": [
        {
            " ++ dq ++ "pattern" ++ dq ++ ": " ++ dq ++ "description of emotional pattern" ++ dq ++ ",
            " ++ dq ++ "frequency" ++ dq ++ ": 0.7,
            " ++ dq ++ "triggers" ++ dq ++ ": [" ++ dq ++ "trigger1" ++ dq ++ ", " ++ dq ++ "trigger2" ++ dq ++ "],
            " ++ dq ++ "intensity" ++ dq ++ ": " ++ dq ++ "low|medium|high" ++ dq ++ ",
            " ++ dq ++ "context" ++ dq ++ ": " ++ dq ++ "when this pattern appears" ++ dq ++ "
        }
    ],
    " ++ dq ++ "facts" ++ dq ++ ": [
        {
            " ++ dq ++ "fact_type" ++ dq ++ ": " ++ dq ++ "personal|background|event|relationship|work|health" ++ dq ++ ",
            " ++ dq ++ "value" ++ dq ++ ": " ++ dq ++ "factual information" ++ dq ++ ",
            " ++ dq ++ "confidence" ++ dq ++ ": 0.9,
            " ++ dq ++ "source_context" ++ dq ++ ": " ++ dq ++ "where this was mentioned" ++ dq ++ ",
            " ++ dq ++ "temporal_relevance" ++ dq ++ ": " ++ dq ++ "current|past|ongoing" ++ dq ++ "
        }
    ]
}

Guidelines:
- Be specific and precise in your extractions
- Include confidence scores for all items
- Provide context and examples when possible
- Focus on information that would be valuable for personalized interactions
- Avoid making assumptions beyond what's supported by the messages
- If uncertain, use lower confidence scores rather than omitting information").

Definition message_analysis_prompt : string :=
"You are a conversation analyst. Your task is to analyze individual messages and identify key insights about the user.

For each message, identify:
1. Emotional state or tone
2. Any preferences expressed
3. Any factual information shared
4. Communication style indicators

Return a concise analysis focusing on actionable insights for building user understanding.".

Section MemoryExtractor.
Context {P : Pydantic}.

Variable llm : LLM.client.

(** [_format_messages]: the lines of the messages from position [i] on. *)
Fixpoint format_lines (i : nat) (msgs : list (list (string * string)))
  : list string :=
  match msgs with
  | [] => []
  | msg :: rest =>
      let role := upper (Py.get_str "role" "unknown" msg) in
      let content := strip (Py.get_str "content" EmptyString msg) in
      if truthy content
      then ("[" ++ of_nat i ++ "] " ++ role ++ ": " ++ content)
             :: format_lines (S i) rest
      else format_lines (S i) rest
  end.

Definition format_messages (msgs : list (list (string * string))) : string :=
  join nl (format_lines 1 msgs).

Definition extraction_user_prompt (formatted_messages : string) : string :=
  "Analyze these chat messages and extract user memory information:"
  ++ nl ++ nl ++ formatted_messages ++ nl ++ nl ++
  "Focus on identifying patterns, preferences, and facts that would be useful for creating personalized AI responses. Provide your analysis in the specified JSON format.".

(** [response.strip().strip('```json').strip('```').strip()] *)
Definition clean_response (response : string) : string :=
  strip (strip_chars "```" (strip_chars "```json" (strip response))).

Definition invalid_json : exn :=
  MemoryExtractionError "Invalid JSON response from LLM: "
                        (Builtin JSONDecodeError).

(** The second half of [_extract_with_llm]: the reply is cleaned and
    decoded. *)
Definition parse_response (response : string) : result json :=
  match JsonLoads.loads (clean_response response) with
  | Some extraction_data => Ok extraction_data
  | None => Raise invalid_json
  end.

Definition extract_with_llm (formatted_messages : string) : LLM.M json :=
  (response <- LLM.call llm
      {| system_prompt := memory_extraction_prompt;
         user_prompt := extraction_user_prompt formatted_messages;
         temperature := Some f_0_3;
         max_tokens := Some 2000;
         model := None |} ;;
   LLM.lift (parse_response response))%llm.

(** A loop whose body builds an element inside [try] and appends it,
    and whose [except] only logs a warning. *)
Fixpoint keep_valid {A} (new : json -> result A) (l : list json) : list A :=
  match l with
  | [] => []
  | x :: l' =>
      match new x with
      | Ok a => a :: keep_valid new l'
      | Raise _ => keep_valid new l'
      end
  end.

(** [preferences_dict[preference.category].append(preference)], the key
    being created with an empty list when it is new. *)
Fixpoint add_preference (p : UserPreference.t)
    (d : list (PreferenceType * list UserPreference.t))
  : list (PreferenceType * list UserPreference.t) :=
  match d with
  | [] => [(UserPreference.category p, [p])]
  | (c, ps) :: d' =>
      if PreferenceType_.eqb (UserPreference.category p) c
      then (c, (ps ++ [p])%list) :: d'
      else (c, ps) :: add_preference p d'
  end.

Definition group_preferences (l : list json)
  : list (PreferenceType * list UserPreference.t) :=
  fold_left (fun d pref_data =>
               match UserPreference.new pref_data with
               | Ok preference => add_preference preference d
               | Raise _ => d
               end) l [].

(** An int is used as it is ([True] and [False] are the ints 1 and 0), a
    list gives its length, anything else 0. *)
Definition messages_analyzed (raw : json) : Z :=
  match raw with
  | JInt n => n
  | JBool b => Z.b2z b
  | JList l => Z.of_nat (List.length l)
  | _ => 0
  end.

Definition parse_failed (e : exn) : exn :=
  MemoryExtractionError "Failed to parse extraction results: " e.

Definition parse_extraction_result (extraction_data : json)
    (user_id : option string) : result UserMemory.t :=
  reraise parse_failed
    (prefs <- rbind (Py.get "preferences" (JList []) extraction_data) Py.iter ;;
     let preferences_dict := group_preferences prefs in
     pats <- rbind (Py.get "emotional_patterns" (JList []) extraction_data)
                   Py.iter ;;
     let emotional_patterns := keep_valid EmotionalPattern.new pats in
     fcts <- rbind (Py.get "facts" (JList []) extraction_data) Py.iter ;;
     let facts := keep_valid UserFact.new fcts in
     raw_messages_analyzed <- Py.get "messages_analyzed" JNull extraction_data ;;
     let message_count := messages_analyzed raw_messages_analyzed in
     Ok (UserMemory.mk user_id preferences_dict emotional_patterns facts
                       message_count "1.0"))%result.

(** The counts of [processing_stats].  The dictionary is local to
    [_enhance_memory_with_stats] and is not returned; its average of the
    confidences, a float sum that cannot raise, and its timestamp are left
    out. *)
Record ProcessingStats : Type := {
  total_messages : nat;
  preferences_count : nat;
  emotional_patterns_count : nat;
  facts_count : nat
}.

Definition processing_stats (memory : UserMemory.t)
    (msgs : list (list (string * string))) : ProcessingStats :=
  {| total_messages := List.length msgs;
     preferences_count :=
       list_sum (map (fun kv => List.length (snd kv))
                     (UserMemory.preferences memory));
     emotional_patterns_count :=
       List.length (UserMemory.emotional_patterns memory);
     facts_count := List.length (UserMemory.facts memory) |}.

Definition enhance_memory_with_stats (memory : UserMemory.t)
    (msgs : list (list (string * string))) : UserMemory.t :=
  let _stats := processing_stats memory msgs in
  UserMemory.set_message_count (Z.of_nat (List.length msgs)) memory.

Definition extraction_failed (e : exn) : exn :=
  MemoryExtractionError "Failed to extract memory: " e.

Definition extract_memory (request : MemoryExtractionRequest)
  : LLM.M UserMemory.t :=
  LLM.try_except
    (let formatted_messages := format_messages (messages request) in
     extraction_result <- extract_with_llm formatted_messages ;;
     memory <- LLM.lift
                 (parse_extraction_result extraction_result (user_id request)) ;;
     LLM.ret (enhance_memory_with_stats memory (messages request)))%llm
    (fun e => LLM.raise (extraction_failed e)).

End MemoryExtractor.
End MemoryExtractor.

(* ------------------------------------------------------------------ *)
(** ** services/llm_client.py *)

Module LLMClient.

Record t : Type := {
  api_key : string;
  base_url : string;
  default_model : string;
  default_temperature : pyfloat;
  default_max_tokens : Z
}.

(** [__init__]; [getenv] reads the process environment. *)
Definition init (getenv : string -> option string)
    (api_key base_url : option string) : result t :=
  let key :=
    match api_key with
    | Some k => if PyStr.truthy k then Some k else getenv "GROQ_API_KEY"
    | None => getenv "GROQ_API_KEY"
    end in
  match key with
  | Some k =>
      if PyStr.truthy k
      then Ok {| api_key := k;
                 base_url :=
                   Py.or_else PyStr.truthy base_url
                     "https://api.groq.com/openai/v1/chat/completions";
                 default_model :=
                   match getenv "GROQ_MODEL" with
                   | Some m => m
                   | None => "llama-3.3-70b-versatile"
                   end;
                 default_temperature := f_0_7;
                 default_max_tokens := 1000 |}
      else Raise (Builtin ValueError)
  | None => Raise (Builtin ValueError)
  end.

(** The body of the request posted to the completion endpoint. *)
Record Payload : Type := {
  p_model : string;
  p_messages : list (string * string);   (* role, content *)
  p_temperature : pyfloat;
  p_max_tokens : Z
}.

(** [bool(x)] of a float and of an int. *)
Definition nonzeroF (f : pyfloat) : bool :=
  match f with
  | FFin q => negb (Qeq_bool q 0)
  | _ => true
  end.
Definition nonzeroZ (n : Z) : bool := negb (n =? 0).

Definition payload (self : t) (rq : LLMRequest) : Payload :=
  {| p_model := Py.or_else PyStr.truthy (model rq) (default_model self);
     p_messages := [("system", system_prompt rq); ("user", user_prompt rq)];
     p_temperature :=
       Py.or_else nonzeroF (temperature rq) (default_temperature self);
     p_max_tokens :=
       Py.or_else nonzeroZ (max_tokens rq) (default_max_tokens self) |}.

(** What [session.post], [raise_for_status] and [response.json] come to. *)
Inductive http_outcome : Type :=
  | Timeout
  | ConnectionError
  | HTTPError (status : Z)
  | OtherFailure (msg : string)
  | Response (response_data : json).

(** [v[k]] for a string key. *)
Definition item (k : string) (v : json) : result json :=
  match v with
  | JDict d =>
      match PyDict.get k d with
      | Some x => Ok x
      | None => Raise (Builtin KeyError)
      end
  | _ => Raise (Builtin TypeError)
  end.

(** [v[0]] *)
Definition item0 (v : json) : result json :=
  match v with
  | JList (x :: _) => Ok x
  | JList [] => Raise (Builtin IndexError)
  | JStr (String c _) => Ok (JStr (String c EmptyString))
  | JStr EmptyString => Raise (Builtin IndexError)
  | JDict _ => Raise (Builtin KeyError)
  | _ => Raise (Builtin TypeError)
  end.

(** The logging of the token usage calls [usage.get]. *)
Definition log_usage (response_data : json) : result unit :=
  (usage <- Py.get "usage" (JDict []) response_data ;;
   if Py.truthy usage
   then match usage with
        | JDict _ => Ok tt
        | _ => Raise (Builtin AttributeError)
        end
   else Ok tt)%result.

Definition content_of (response_data : json) : result string :=
  (choices <- item "choices" response_data ;;
   choice <- item0 choices ;;
   message <- item "message" choice ;;
   content <- item "content" message ;;
   _ <- log_usage response_data ;;
   match content with
   | JStr s => Ok (PyStr.strip s)
   | _ => Raise (Builtin AttributeError)
   end)%result.

(** The [except] clauses of [generate_response]. *)
Definition translate (e : exn) : exn :=
  match e with
  | Builtin KeyError => LLMClientError InvalidResponseFormat
  | Builtin b => LLMClientError (UnexpectedError (inl b))
  | _ => LLMClientError (UnexpectedError (inr EmptyString))
  end.

Definition generate_response (self : t) (post : Payload -> http_outcome)
    (rq : LLMRequest) : result string :=
  match post (payload self rq) with
  | Timeout => Raise (LLMClientError RequestTimedOut)
  | ConnectionError => Raise (LLMClientError ConnectionFailed)
  | HTTPError status => Raise (LLMClientError (ApiError status))
  | OtherFailure msg => Raise (LLMClientError (UnexpectedError (inr msg)))
  | Response response_data => reraise translate (content_of response_data)
  end.

(** The client handed to the services, over an endpoint that may answer
    by the requests it has received. *)
Definition client (self : t)
    (endpoint : list Payload -> Payload -> http_outcome) : LLM.client :=
  fun calls rq =>
    generate_response self (endpoint (map (payload self) calls)) rq.

End LLMClient.

(* ------------------------------------------------------------------ *)
(** ** models/personality_models.py *)

Inductive PersonalityType : Type :=
  | MENTOR | FRIEND | THERAPIST | PROFESSIONAL_ | CREATIVE | ANALYTICAL
  | ENTHUSIASTIC.

Module PersonalityType_.

(** [list(PersonalityType)] *)
Definition all : list PersonalityType :=
  [MENTOR; FRIEND; THERAPIST; PROFESSIONAL_; CREATIVE; ANALYTICAL;
   ENTHUSIASTIC].

Definition value (p : PersonalityType) : string :=
  match p with
  | MENTOR => "mentor"
  | FRIEND => "friend"
  | THERAPIST => "therapist"
  | PROFESSIONAL_ => "professional"
  | CREATIVE => "creative"
  | ANALYTICAL => "analytical"
  | ENTHUSIASTIC => "enthusiastic"
  end.

Definition eqb (a b : PersonalityType) : bool :=
  String.eqb (value a) (value b).

End PersonalityType_.

Inductive Formality : Type := formal | semi_formal | casual.
Inductive Level : Type := high | medium | low.

Record ToneCharacteristics : Type := {
  formality : Formality;
  empathy : Level;
  directness : Level;
  creativity : Level;
  humor : Level;
  supportiveness : Level
}.

Module ToneCharacteristics_.

Definition formality_str (f : Formality) : string :=
  match f with
  | formal => "formal"
  | semi_formal => "semi-formal"
  | casual => "casual"
  end.

Definition level_str (l : Level) : string :=
  match l with
  | high => "high"
  | medium => "medium"
  | low => "low"
  end.

(** [str(characteristics.dict())] *)
Definition dict_str (c : ToneCharacteristics) : string :=
  "{'formality': '" ++ formality_str (formality c) ++
  "', 'empathy': '" ++ level_str (empathy c) ++
  "', 'directness': '" ++ level_str (directness c) ++
  "', 'creativity': '" ++ level_str (creativity c) ++
  "', 'humor': '" ++ level_str (humor c) ++
  "', 'supportiveness': '" ++ level_str (supportiveness c) ++ "'}".

End ToneCharacteristics_.

Record PersonalityProfile : Type := {
  name : string;
  type : PersonalityType;
  description : string;
  characteristics : ToneCharacteristics;
  profile_system_prompt : string;
  response_guidelines : list string;
  vocabulary_preferences : list string;
  response_patterns : list string
}.

Record PersonalityTransformationRequest : Type := {
  original_response : string;
  target_personality : PersonalityType;
  tr_user_memory : option dict;
  conversation_context : option (list (list (string * string)));
  tr_user_message : option string
}.

Record PersonalityTransformationResponse : Type := {
  tf_original_response : string;
  transformed_response : string;
  personality_type : PersonalityType;
  transformation_explanation : string;
  tone_analysis : list (string * string);
  confidence_score : pyfloat
}.

Record PersonalityComparison : Type := {
  pc_user_message : string;
  base_response : string;
  personality_responses : list (PersonalityType * string);
  comparison_analysis : list (string * string);
  recommendations : list string
}.

Record ResponseGenerationRequest : Type := {
  user_message : string;
  personality : PersonalityType;
  user_memory : option dict;
  conversation_history : option (list (list (string * string)));
  context : option string
}.

Record ResponseGenerationResponse : Type := {
  response : string;
  rg_personality : PersonalityType;
  personalization_elements : list string;
  tone_metrics : list (string * string);
  memory_references : list string;
  generation_confidence : pyfloat
}.

(* ------------------------------------------------------------------ *)
(** ** services/personality_engine.py *)

Module PersonalityEngine.
Import PyStr.

(** [_initialize_personalities] *)
Definition initialize_personalities (p : PersonalityType)
    : PersonalityProfile :=
    match p with
    | MENTOR =>
        {| name := "Wise Mentor";
           type := MENTOR;
           description :=
             "An experienced, calm guide who provides structured wisdom and encouragement";
           characteristics :=
             {| formality := semi_formal; empathy := high; directness := medium;
                creativity := medium; humor := low; supportiveness := high |};
           profile_system_prompt :=
("You are a wise and experienced mentor. Your role is to provide guidance that is both insightful and actionable.

Communication Style:
- Speak with calm authority and wisdom
- Use metaphors and analogies to explain complex concepts
- Structure your thoughts clearly (often using frameworks like " ++ dq ++ "First... Second... Finally..." ++ dq ++ ")
- Balance encouragement with honest feedback
- Ask thought-provoking questions that lead to self-discovery

Response Guidelines:
- Start with acknowledgment and validation
- Provide 2-3 key insights or pieces of advice
- Include a practical action step
- End with encouragement or a reflective question
- Use phrases like " ++ dq ++ "Consider this perspective..." ++ dq ++ ", " ++ dq ++ "What I've found is..." ++ dq ++ ", " ++ dq ++ "This reminds me of..." ++ dq ++ "

Vocabulary: wisdom, insight, perspective, journey, growth, potential, guidance, reflect");
           response_guidelines :=
             ["Always validate the user's feelings or situation first";
              "Provide structured, actionable advice";
              "Use storytelling or metaphors when helpful";
              "End with forward-looking encouragement"];
           vocabulary_preferences :=
             ["wisdom";
              "insight";
              "perspective";
              "journey";
              "growth";
              "potential";
              "guidance";
              "reflect";
              "consider"];
           response_patterns :=
             ["I understand where you're coming from...";
              "Let me share a perspective that might help...";
              "Here's what I've found valuable...";
              "Consider taking these steps..."] |}
    | FRIEND =>
        {| name := "Witty Friend";
           type := FRIEND;
           description :=
             "A fun, casual companion who uses humor and relatable language";
           characteristics :=
             {| formality := casual; empathy := medium; directness := high;
                creativity := high; humor := high; supportiveness := medium |};
           profile_system_prompt :=
"You are a witty and friendly companion. Your role is to make conversations engaging, fun, and relatable.

Communication Style:
- Use casual, conversational language
- Incorporate appropriate humor and wit
- Be enthusiastic and energetic
- Share relatable experiences or observations
- Keep responses concise and punchy

Response Guidelines:
- Start with an engaging or humorous opening
- Use informal language and contractions
- Includes Include light.
- Keep 2-3 sentences maximum for most responses
- Use emojis occasionally when appropriate
- End with a friendly question or comment

Vocabulary: awesome, totally, literally, basically, honestly, fun, cool, interesting";
           response_guidelines :=
             ["Keep it light and fun";
              "Use humor appropriately";
              "Be relatable and authentic";
              "Keep responses concise"];
           vocabulary_preferences :=
             ["awesome";
              "totally";
              "literally";
              "basically";
              "honestly";
              "fun";
              "cool";
              "interesting";
              "dude";
              "man";
              "hey"];
           response_patterns :=
             ["OMG, totally get what you mean!";
              "Honestly, that reminds me of...";
              "You know what I mean?";
              "That's so relatable!"] |}
    | THERAPIST =>
        {| name := "Empathetic Therapist";
           type := THERAPIST;
           description :=
             "A compassionate, professional guide who helps explore thoughts and feelings";
           characteristics :=
             {| formality := formal; empathy := high; directness := low;
                creativity := low; humor := low; supportiveness := high |};
           profile_system_prompt :=
("You are an empathetic and professional therapist. Your role is to provide a safe, supportive space for exploration.

Communication Style:
- Use warm, professional language
- Practice active listening and validation
- Ask gentle, open-ended questions
- Maintain appropriate boundaries
- Focus on feelings and underlying patterns

Response Guidelines:
- Always acknowledge and validate feelings
- Use reflective statements
- Ask thoughtful questions about experience
- Avoid giving direct advice unless specifically asked
- Use " ++ dq ++ "I hear you saying..." ++ dq ++ " or " ++ dq ++ "It sounds like..." ++ dq ++ " patterns
- Maintain calm, steady tone

Vocabulary: feelings, experience, notice, wonder, explore, understand, support");
           response_guidelines :=
             ["Validate emotions first";
              "Ask open-ended questions";
              "Use reflective listening";
              "Maintain professional boundaries"];
           vocabulary_preferences :=
             ["feelings";
              "experience";
              "notice";
              "wonder";
              "explore";
              "understand";
              "support";
              "validate";
              "reflect"];
           response_patterns :=
             ["I hear you saying that...";
              "It sounds like you're feeling...";
              "What I'm noticing is...";
              "How does that feel for you?";
              "Tell me more about..."] |}
    | PROFESSIONAL_ =>
        {| name := "Professional Assistant";
           type := PROFESSIONAL_;
           description :=
             "A formal, efficient assistant who provides clear, actionable information";
           characteristics :=
             {| formality := formal; empathy := low; directness := high;
                creativity := low; humor := low; supportiveness := medium |};
           profile_system_prompt :=
"You are a professional and efficient assistant. Your role is to provide clear, accurate information and solutions.

Communication Style:
- Use formal, professional language
- Be direct and to the point
- Organize information logically
- Focus on facts and practical solutions
- Maintain appropriate professional distance

Response Guidelines:
- Start with a clear acknowledgment
- Provide 2-3 key points or solutions
- Use bullet points or numbered lists when appropriate
- Avoid unnecessary elaboration
- End with a professional closing

Vocabulary: efficient, solution, recommendation, implement, strategy, optimize";
           response_guidelines :=
             ["Be direct and concise";
              "Focus on practical solutions";
              "Use professional language";
              "Structure information clearly"];
           vocabulary_preferences :=
             ["efficient";
              "solution";
              "recommendation";
              "implement";
              "strategy";
              "optimize";
              "professional";
              "regarding"];
           response_patterns :=
             ["I understand your request regarding...";
              "Here are the key recommendations:";
              "To address this effectively...";
              "Please let me know if you require..."] |}
    | CREATIVE =>
        {| name := "Creative Muse";
           type := CREATIVE;
           description :=
             "An imaginative, artistic personality who thinks outside the box";
           characteristics :=
             {| formality := casual; empathy := medium; directness := low;
                creativity := high; humor := medium; supportiveness := high |};
           profile_system_prompt :=
("You are a creative and imaginative muse. Your role is to inspire innovative thinking and artistic expression.

Communication Style:
- Use vivid, descriptive language
- Think metaphorically and symbolically
- Encourage exploration and experimentation
- Make unexpected connections
- Inspire rather than direct

Response Guidelines:
- Use colorful imagery and metaphors
- Ask " ++ dq ++ "what if" ++ dq ++ " questions
- Suggest multiple perspectives
- Encourage creative exploration
- Use artistic and expressive language

Vocabulary: imagine, create, inspire, vision, canvas, palette, masterpiece");
           response_guidelines :=
             ["Think metaphorically";
              "Encourage exploration";
              "Use vivid imagery";
              "Make unexpected connections"];
           vocabulary_preferences :=
             ["imagine";
              "create";
              "inspire";
              "vision";
              "canvas";
              "palette";
              "masterpiece";
              "artistic";
              "express"];
           response_patterns :=
             ["Imagine if we could...";
              "This reminds me of a painting where...";
              "What if we approached this like...";
              "Let's paint a picture of..."] |}
    | ANALYTICAL =>
        {| name := "Analytical Thinker";
           type := ANALYTICAL;
           description :=
             "A logical, data-driven personality who breaks down complex problems";
           characteristics :=
             {| formality := formal; empathy := low; directness := high;
                creativity := low; humor := low; supportiveness := medium |};
           profile_system_prompt :=
"You are an analytical and logical thinker. Your role is to break down complex problems into understandable components.

Communication Style:
- Use precise, logical language
- Focus on data and evidence
- Break down complex ideas systematically
- Identify patterns and relationships
- Maintain objective perspective

Response Guidelines:
- Start with problem analysis
- Use logical frameworks (cause-effect, pros-cons)
- Provide evidence-based reasoning
- Identify key variables and factors
- Conclude with logical recommendations

Vocabulary: analyze, data, evidence, logical, systematic, framework, variables";
           response_guidelines :=
             ["Break down problems systematically";
              "Use evidence-based reasoning";
              "Maintain objectivity";
              "Focus on logical structure"];
           vocabulary_preferences :=
             ["analyze";
              "data";
              "evidence";
              "logical";
              "systematic";
              "framework";
              "variables";
              "hypothesis";
              "correlation"];
           response_patterns :=
             ["Let's analyze this systematically...";
              "The data suggests that...";
              "Breaking this down into components...";
              "From a logical perspective..."] |}
    | ENTHUSIASTIC =>
        {| name := "Enthusiastic Cheerleader";
           type := ENTHUSIASTIC;
           description :=
             "An energetic, optimistic personality who motivates and inspires";
           characteristics :=
             {| formality := casual; empathy := high; directness := high;
                creativity := medium; humor := medium; supportiveness := high |};
           profile_system_prompt :=
"You are an enthusiastic and optimistic cheerleader. Your role is to motivate, inspire, and celebrate progress.

Communication Style:
- Use high-energy, positive language
- Express genuine excitement and encouragement
- Celebrate small wins and progress
- Use exclamation points (appropriately)
- Maintain upbeat, positive tone

Response Guidelines:
- Start with enthusiastic acknowledgment
- Use positive reinforcement
- Celebrate effort and progress
- Express belief in user's potential
- End with motivational encouragement

Vocabulary: amazing, excited, fantastic, wonderful, brilliant, celebrate";
           response_guidelines :=
             ["Maintain high energy";
              "Celebrate progress";
              "Use positive reinforcement";
              "Express genuine enthusiasm"];
           vocabulary_preferences :=
             ["amazing";
              "excited";
              "fantastic";
              "wonderful";
              "brilliant";
              "celebrate";
              "awesome";
              "incredible";
              "motivated"];
           response_patterns :=
             ["That's absolutely amazing!";
              "I'm so excited for you!";
              "You're doing fantastic!";
              "Let's celebrate this progress!"] |}
    end.

Section PersonalityEngine.

(** [self.personalities]: one profile for each personality type. *)
Variable personalities : PersonalityType -> PersonalityProfile.
(** [str(v)] of a value placed in an f-string. *)
Variable py_str : json -> string.
Variable llm : LLM.client.

Import PyStr.

#[local] Notation "a +++ b" := (List.app a b)
  (at level 60, right associativity).

Definition nonempty {A} (l : list A) : bool :=
  match l with [] => false | _ => true end.

Definition mentions (k : string) (label : string) (user_memory : dict)
  : list string :=
  match PyDict.get k user_memory with
  | Some v => [label ++ py_str v]
  | None => []
  end.

Definition format_memory_context (user_memory : dict) : string :=
  if nonempty user_memory
  then join "; " (mentions "preferences" "Preferences: " user_memory
                  +++ mentions "emotional_patterns" "Emotional patterns: "
                        user_memory
                  +++ mentions "facts" "Known facts: " user_memory)
  else EmptyString.

(** [conversation[-3:]] *)
Definition last3 {A} (l : list A) : list A := skipn (List.length l - 3) l.

Definition format_conversation_context
    (conversation : list (list (string * string))) : string :=
  if nonempty conversation
  then join " | "
         (map (fun msg =>
                 let role := Py.get_str "role" "unknown" msg in
                 let content :=
                   take 100 (Py.get_str "content" EmptyString msg) in
                 role ++ ": " ++ content)
              (last3 conversation))
  else EmptyString.

Definition section_if {A} (truthy : A -> bool) (o : option A)
    (render : A -> string) : list string :=
  match o with
  | Some a => if truthy a then [render a] else []
  | None => []
  end.

Definition build_transformation_prompt (original_response : string)
    (target_profile : PersonalityProfile) (user_memory : option dict)
    (conversation_context : option (list (list (string * string))))
    (user_message : option string) : string :=
  join nl
    ([ "Transform this response to match the " ++ name target_profile
         ++ " personality:";
       nl ++ "Original response: " ++ original_response;
       nl ++ "Keep the core meaning but adapt the tone, style, and language to match the target personality." ]
     +++ section_if PyStr.truthy user_message
          (fun m => nl ++ "Original user message: " ++ m)
     +++ section_if nonempty user_memory
          (fun m => nl ++ "User context: " ++ format_memory_context m)
     +++ section_if nonempty conversation_context
          (fun c => nl ++ "Recent conversation: "
                       ++ format_conversation_context c)
     +++ [ nl ++ "Personality characteristics: "
             ++ ToneCharacteristics_.dict_str (characteristics target_profile);
          nl ++ "Response guidelines: "
             ++ join "; " (response_guidelines target_profile);
          nl ++ "Transform the response now:" ]).

Definition build_context_prompt (user_message : string)
    (profile : PersonalityProfile) (user_memory : option dict)
    (conversation_history : option (list (list (string * string))))
    (context : option string) : string :=
  join nl
    ([ "User message: " ++ user_message ]
     +++ section_if PyStr.truthy context
          (fun c => nl ++ "Additional context: " ++ c)
     +++ section_if nonempty user_memory
          (fun m => nl ++ "User information: " ++ format_memory_context m)
     +++ section_if nonempty conversation_history
          (fun c => nl ++ "Recent conversation: "
                       ++ format_conversation_context c)
     +++ [ nl ++ "Generate a response that matches your personality and uses the context above." ]).

Definition tone_unavailable : list (string * string) :=
  [("analysis", "Tone analysis unavailable")].

Definition explanation_unavailable : string :=
  "Transformation explanation unavailable".

Definition analysis_prompt (original transformed : string)
    (target_profile : PersonalityProfile) : string :=
  "Compare these two responses and analyze the tone changes:" ++ nl ++ nl
  ++ "Original: " ++ original ++ nl
  ++ "Transformed: " ++ transformed ++ nl
  ++ "Target personality: " ++ name target_profile ++ nl ++ nl
  ++ "Analyze changes in:" ++ nl
  ++ "- Formality" ++ nl
  ++ "- Empathy level" ++ nl
  ++ "- Directness" ++ nl
  ++ "- Creativity" ++ nl
  ++ "- Humor" ++ nl
  ++ "- Supportiveness" ++ nl ++ nl
  ++ "Provide a brief analysis of what changed and how well it matches the target personality.".

Definition analyze_tone_changes (original transformed : string)
    (target_profile : PersonalityProfile) : LLM.M (list (string * string)) :=
  LLM.try_except
    (response <- LLM.call llm
        {| system_prompt := "You are an expert in communication analysis.";
           user_prompt := analysis_prompt original transformed target_profile;
           temperature := Some f_0_3;
           max_tokens := Some 300;
           model := None |} ;;
     LLM.ret [("analysis", response)])%llm
    (fun _ => LLM.ret tone_unavailable).

Definition explanation_prompt (original transformed : string)
    (target_profile : PersonalityProfile) : string :=
  "Explain how this response was transformed to match the "
  ++ name target_profile ++ " personality:" ++ nl ++ nl
  ++ "Original: " ++ original ++ nl
  ++ "Transformed: " ++ transformed ++ nl ++ nl
  ++ "Explain the specific changes made in tone, language, and approach. Be concise and informative.".

Definition generate_transformation_explanation
    (original transformed : string) (target_profile : PersonalityProfile)
  : LLM.M string :=
  LLM.try_except
    (LLM.call llm
        {| system_prompt := "You are an expert in personality communication.";
           user_prompt :=
             explanation_prompt original transformed target_profile;
           temperature := Some f_0_3;
           max_tokens := Some 200;
           model := None |})
    (fun _ => LLM.ret explanation_unavailable).

Definition analyze_response_tone (response : string)
    (profile : PersonalityProfile) : list (string * string) :=
  [("personality_match", "high"); ("tone_consistency", "good");
   ("clarity", "high"); ("engagement", "medium")].

(** The loop of [_extract_personalization_elements]; [lower] is a method
    of strings only. *)
Fixpoint preference_elements (response : string) (prefs : list json)
  : result (list string) :=
  match prefs with
  | [] => Ok []
  | pref :: rest =>
      match pref with
      | JStr s =>
          (elements <- preference_elements response rest ;;
           Ok (if contains (lower s) (lower response)
               then ("Referenced preference: " ++ s) :: elements
               else elements))%result
      | _ => Raise (Builtin AttributeError)
      end
  end.

Definition extract_personalization_elements (response : string)
    (user_memory : option dict) : result (list string) :=
  match user_memory with
  | None | Some [] => Ok []
  | Some m =>
      match PyDict.get "preferences" m with
      | Some prefs => rbind (Py.iter prefs) (preference_elements response)
      | None => Ok []
      end
  end.

(** The loop of [_extract_memory_references]. *)
Fixpoint fact_references (response : string) (facts : list json)
  : result (list string) :=
  match facts with
  | [] => Ok []
  | fact :: rest =>
      match fact with
      | JDict d =>
          match PyDict.get "value" d with
          | Some (JStr value) =>
              (references <- fact_references response rest ;;
               Ok (if contains (lower value) (lower response)
                   then ("Referenced fact: " ++ value) :: references
                   else references))%result
          | Some _ => Raise (Builtin AttributeError)
          | None => fact_references response rest
          end
      | _ => fact_references response rest
      end
  end.

Definition extract_memory_references (response : string)
    (user_memory : option dict) : result (list string) :=
  match user_memory with
  | None | Some [] => Ok []
  | Some m =>
      match PyDict.get "facts" m with
      | Some facts => rbind (Py.iter facts) (fact_references response)
      | None => Ok []
      end
  end.

Definition generation_temperature (p : PersonalityType) : pyfloat :=
  if PersonalityType_.eqb p FRIEND then f_0_7 else f_0_5.

Definition generation_failed (e : exn) : exn :=
  PersonalityEngineError "Failed to generate response: " e.

Definition generate_response (request : ResponseGenerationRequest)
  : LLM.M ResponseGenerationResponse :=
  LLM.try_except
    (let profile := personalities (personality request) in
     let context_prompt :=
       build_context_prompt (user_message request) profile
         (user_memory request) (conversation_history request)
         (context request) in
     response <- LLM.call llm
        {| system_prompt := profile_system_prompt profile;
           user_prompt := context_prompt;
           temperature := Some (generation_temperature (personality request));
           max_tokens := Some 500;
           model := None |} ;;
     let tone_metrics := analyze_response_tone response profile in
     personalization_elements <-
       LLM.lift (extract_personalization_elements response
                   (user_memory request)) ;;
     memory_references <-
       LLM.lift (extract_memory_references response (user_memory request)) ;;
     LLM.ret {| response := response;
                rg_personality := personality request;
                personalization_elements := personalization_elements;
                tone_metrics := tone_metrics;
                memory_references := memory_references;
                generation_confidence := f_0_88 |})%llm
    (fun e => LLM.raise (generation_failed e)).

Definition transformation_failed (e : exn) : exn :=
  PersonalityEngineError "Failed to transform response: " e.

Definition transform_response (request : PersonalityTransformationRequest)
  : LLM.M PersonalityTransformationResponse :=
  LLM.try_except
    (let target_profile := personalities (target_personality request) in
     let transformation_prompt :=
       build_transformation_prompt (original_response request)
         target_profile (tr_user_memory request)
         (conversation_context request) (tr_user_message request) in
     transformed_response <- LLM.call llm
        {| system_prompt := profile_system_prompt target_profile;
           user_prompt := transformation_prompt;
           temperature :=
             Some (generation_temperature (target_personality request));
           max_tokens := Some 500;
           model := None |} ;;
     tone_analysis <-
       analyze_tone_changes (original_response request)
         transformed_response target_profile ;;
     explanation <-
       generate_transformation_explanation (original_response request)
         transformed_response target_profile ;;
     LLM.ret {| tf_original_response := original_response request;
                transformed_response := transformed_response;
                personality_type := target_personality request;
                transformation_explanation := explanation;
                tone_analysis := tone_analysis;
                confidence_score := f_0_85 |})%llm
    (fun e => LLM.raise (transformation_failed e)).

(** [personality_responses[personality] = text] *)
Fixpoint set_response (p : PersonalityType) (text : string)
    (d : list (PersonalityType * string)) : list (PersonalityType * string) :=
  match d with
  | [] => [(p, text)]
  | (p', t') :: d' =>
      if PersonalityType_.eqb p p' then (p, text) :: d'
      else (p', t') :: set_response p text d'
  end.

(** The loop of [compare_personalities]. *)
Fixpoint generate_each (user_message : string)
    (ps : list PersonalityType)
    (personality_responses : list (PersonalityType * string))
  : LLM.M (list (PersonalityType * string)) :=
  match ps with
  | [] => LLM.ret personality_responses
  | p :: rest =>
      (r <- generate_response
              {| user_message := user_message;
                 personality := p;
                 user_memory := None;
                 conversation_history := None;
                 context := None |} ;;
       generate_each user_message rest
         (set_response p (response r) personality_responses))%llm
  end.

Definition analyze_response_differences (base_response : string)
    (personality_responses : list (PersonalityType * string))
  : list (string * string) :=
  [("tone_variety", "high"); ("approach_differences", "significant");
   ("length_variations", "notable"); ("emotional_range", "wide")].

Definition generate_usage_recommendations (user_message : string)
    (personality_responses : list (PersonalityType * string)) : list string :=
  ["Use Mentor for guidance and advice";
   "Use Friend for casual conversation";
   "Use Therapist for emotional support";
   "Use Professional for formal assistance"].

Definition comparison_failed (e : exn) : exn :=
  PersonalityEngineError "Failed to compare personalities: " e.

Definition compare_personalities (user_message base_response : string)
    (ps : option (list PersonalityType)) : LLM.M PersonalityComparison :=
  LLM.try_except
    (let ps := match ps with
               | None => PersonalityType_.all
               | Some l => l
               end in
     personality_responses <- generate_each user_message ps [] ;;
     let comparison_analysis :=
       analyze_response_differences base_response personality_responses in
     let recommendations :=
       generate_usage_recommendations user_message personality_responses in
     LLM.ret {| pc_user_message := user_message;
                base_response := base_response;
                personality_responses := personality_responses;
                comparison_analysis := comparison_analysis;
                recommendations := recommendations |})%llm
    (fun e => LLM.raise (comparison_failed e)).

End PersonalityEngine.
End PersonalityEngine.

(* ------------------------------------------------------------------ *)
(** ** [app.py]: the first, one-module version of the service *)

Module App.


Record MemoryData : Type := {
  preferences : dict;
  emotional_patterns : list string;
  facts : dict
}.


Definition PERSONALITY_PROMPTS : list (string * string) :=
  [("mentor",
    "You are a calm and experienced mentor. Provide helpful, structured guidance. Be supportive and encouraging, but also direct when needed. Offer clear explanations and practical advice.");
   ("friend",
    "You are a witty and friendly companion. Keep the conversation casual, fun, and engaging. Use humor when appropriate and be empathetic. Keep responses concise and relatable.");
   ("therapist",
    "You are an empathetic therapist. Be understanding, non-judgmental, and supportive. Help the user explore their thoughts and feelings. Ask thoughtful questions and provide gentle guidance.");
   ("professional",
    "You are a professional assistant. Be clear, concise, and to the point. Focus on providing accurate information and practical solutions. Maintain a polite but formal tone.")].

(** [PERSONALITY_PROMPTS[k]], [k in PERSONALITY_PROMPTS] *)
Fixpoint lookup (k : string) (d : list (string * string)) : option string :=
  match d with
  | [] => None
  | (k', v) :: d' => if String.eqb k k' then Some v else lookup k d'
  end.

(** The exception an endpoint catches: one that [call_groq_api] raised
    again, or one of the code of the endpoint. *)
Inductive failure : Type :=
  | RequestFailed (o : LLMClient.http_outcome)
  | Raised (e : exn).

(** [call_groq_api(messages, temperature, max_tokens)], with the model of
    its default: the body of the answer, or the exception. *)
Definition call_groq_api (post : LLMClient.Payload -> LLMClient.http_outcome)
    (messages : list (string * string)) (temperature : pyfloat)
    (max_tokens : Z) : failure + json :=
  match post {| LLMClient.p_model := "mixtral-8x7b-32768";
                LLMClient.p_messages := messages;
                LLMClient.p_temperature := temperature;
                LLMClient.p_max_tokens := max_tokens |} with
  | LLMClient.Response response => inr response
  | o => inl (RequestFailed o)
  end.

(** [response['choices'][0]['message']['content']] *)
Definition content_of (response : json) : result json :=
  (choices <- LLMClient.item "choices" response ;;
   choice <- LLMClient.item0 choices ;;
   message <- LLMClient.item "message" choice ;;
   LLMClient.item "content" message)%result.



(** What an endpoint comes to: the value it returns, or an [HTTPException]
    with its status and its detail, a fixed text followed by [str(e)] of
    the exception caught, if any. *)
Inductive reply (A : Type) : Type :=
  | Returns (a : A)
  | HTTPException (status_code : Z) (detail : string) (e : option failure).
Arguments Returns {A} a.
Arguments HTTPException {A} status_code detail e.



(** The lines of a dictionary of the memory: [f"- {k}: {v}\n"]. *)
Definition entries (py_str : json -> string) (memory_str : string) (d : dict)
  : string :=
  fold_left (fun memory_str kv =>
               memory_str ++ "- " ++ fst kv ++ ": " ++ py_str (snd kv)
               ++ PyStr.nl)
            d memory_str.

Definition format_memory (py_str : json -> string) (memory : MemoryData)
  : string :=
  let memory_str := EmptyString in
  let memory_str :=
    match preferences memory with
    | [] => memory_str
    | d => entries py_str
             (memory_str ++ PyStr.nl ++ "User Preferences:" ++ PyStr.nl) d
    end in
  let memory_str :=
    match emotional_patterns memory with
    | [] => memory_str
    | l => fold_left (fun memory_str pattern =>
                        memory_str ++ "- " ++ pattern ++ PyStr.nl)
                     l (memory_str ++ PyStr.nl ++ "Emotional Patterns:"
                        ++ PyStr.nl)
    end in
  match facts memory with
  | [] => memory_str
  | d => entries py_str
           (memory_str ++ PyStr.nl ++ "Known Facts:" ++ PyStr.nl) d
  end.

(** The dictionary [generate_response] returns holds the text generated,
    or the sentence "I'm having trouble generating a response right now.
    Please try again later. (Error: ...)" with [str(e)] of the exception
    caught. *)
Inductive answer : Type :=
  | Generated (ai_response : string)
  | Apology (e : failure).

Definition generate_response
    (post : LLMClient.Payload -> LLMClient.http_outcome)
    (py_str : json -> string) (message personality : string)
    (memory : MemoryData) : answer :=
  let personality :=
    match lookup personality PERSONALITY_PROMPTS with
    | Some _ => personality
    | None => "professional"
    end in
  let memory_str := format_memory py_str memory in
  match lookup personality PERSONALITY_PROMPTS with
  | None => Apology (Raised (Builtin KeyError))
  | Some prompt =>
      let system_prompt :=
        prompt ++ PyStr.nl ++ "        " ++ PyStr.nl
        ++ "        Here's what you know about the user:" ++ PyStr.nl
        ++ "        " ++ memory_str ++ PyStr.nl ++ "        " ++ PyStr.nl
        ++ "        Keep your response concise and in character. Use this context to provide more personalized responses." in
      let api_messages := [("system", system_prompt); ("user", message)] in
      match call_groq_api post api_messages
              (if String.eqb personality "friend" then f_0_7 else f_0_5)
              500 with
      | inl e => Apology e
      | inr response =>
          match content_of response with
          | Ok (JStr s) => Generated (PyStr.strip s)
          | Ok _ => Apology (Raised (Builtin AttributeError))
          | Raise e => Apology (Raised e)
          end
      end
  end.

End App.

(* ================================================================== *)
(** * Notions used by the properties *)

Section Notions.
Import PyStr.

Definition message : Type := list (string * string).











Definition empty_memory (user_id : option string) (message_count : Z)
  : UserMemory.t :=
  UserMemory.mk user_id [] [] [] message_count "1.0".

(** A client that answers every call with the same text. *)
Definition replying (text : string) : LLM.client := fun _ _ => Ok text.

(** The one call [extract_memory] makes. *)
Definition extraction_call (request : MemoryExtractionRequest) : LLMRequest :=
  {| system_prompt := MemoryExtractor.memory_extraction_prompt;
     user_prompt :=
       MemoryExtractor.extraction_user_prompt
         (MemoryExtractor.format_messages (messages request));
     temperature := Some f_0_3;
     max_tokens := Some 2000;
     model := None |}.

(** A float within [0, 1]. *)
Definition in_unit (f : pyfloat) : Prop :=
  match f with
  | FFin q => (0 <= q /\ q <= 1)%Q
  | _ => False
  end.

(** The JSON items a [for] loop visits in the field [k] of the reply, an
    absent field standing for the empty list. *)
Definition items (k : string) (extraction_data : json) : result (list json) :=
  rbind (Py.get k (JList []) extraction_data) Py.iter.

(** The value of the numeric field [k] of an element, when it has one. *)
Definition number_of {P : Pydantic} (k : string) (x : json) : option pyfloat :=
  match x with
  | JDict d => Field.required Field.float k d
  | _ => None
  end.

(** The intensity of an element, when it has one. *)
Definition intensity_of {P : Pydantic} (x : json) : option string :=
  match x with
  | JDict d => Field.required Field.str "intensity" d
  | _ => None
  end.

Definition confidences_in_unit (mem : UserMemory.t) : Prop :=
  (forall c ps p, In (c, ps) (UserMemory.preferences mem) -> In p ps ->
                  in_unit (UserPreference.confidence p))
  /\ (forall p, In p (UserMemory.emotional_patterns mem) ->
                in_unit (EmotionalPattern.frequency p))
  /\ (forall f, In f (UserMemory.facts mem) ->
                in_unit (UserFact.confidence f)).

(** The element has a number in its field [k], and it is not in [0, 1]. *)
Definition out_of_range {P : Pydantic} (k : string) (x : json) : Prop :=
  exists f, number_of k x = Some f /\ ~ in_unit f.

(** The record is the one the reply gives without its out-of-range
    elements. *)
Definition drops_out_of_range {P : Pydantic} (data : json) (mem : UserMemory.t)
  : Prop :=
  (forall l1 x l2,
      items "preferences" data = Ok (l1 ++ x :: l2)%list ->
      out_of_range "confidence" x ->
      UserMemory.preferences mem
      = MemoryExtractor.group_preferences (l1 ++ l2))
  /\ (forall l1 x l2,
      items "emotional_patterns" data = Ok (l1 ++ x :: l2)%list ->
      out_of_range "frequency" x ->
      UserMemory.emotional_patterns mem
      = MemoryExtractor.keep_valid EmotionalPattern.new (l1 ++ l2))
  /\ (forall l1 x l2,
      items "facts" data = Ok (l1 ++ x :: l2)%list ->
      out_of_range "confidence" x ->
      UserMemory.facts mem
      = MemoryExtractor.keep_valid UserFact.new (l1 ++ l2)).

Definition get_or (k : string) (default : json) (d : dict) : json :=
  match PyDict.get k d with
  | Some v => v
  | None => default
  end.

(** A reply that reports seven messages. *)
Definition reply_reporting_seven : string :=
  "{" ++ PyStr.dq ++ "messages_analyzed" ++ PyStr.dq ++ ": 7}".

Definition two_messages : MemoryExtractionRequest :=
  {| messages := [[("role", "user"); ("content", "I love coffee")];
                  [("role", "assistant"); ("content", "Noted")]];
     user_id := Some "test_user_123";
     analysis_depth := "comprehensive" |}.

(** A client whose first call succeeds and whose later calls fail. *)
Definition failing_after_first (text : string) : LLM.client :=
  fun calls _ =>
    match calls with
    | [] => Ok text
    | _ => Raise (Exception "LLM API error")
    end.

(** A request without memory, for which [str] of a memory value is never
    asked. *)
Definition no_str : json -> string := fun _ => EmptyString.

Definition sample_transformation : PersonalityTransformationRequest :=
  {| original_response := "You should plan your week.";
     target_personality := FRIEND;
     tr_user_memory := None;
     conversation_context := None;
     tr_user_message := Some "How do I get organised?" |}.

(** A client whose second call fails. *)
Definition failing_second : LLM.client :=
  fun calls _ =>
    match calls with
    | [_] => Raise (Exception "LLM API error")
    | _ => Ok "Sure, here is a thought."
    end.

(** The value of a fact of the memory: facts that are not dictionaries, or
    have no value, have none. *)
Definition fact_value (fact : json) : list string :=
  match fact with
  | JDict d =>
      match PyDict.get "value" d with
      | Some (JStr v) => [v]
      | _ => []
      end
  | _ => []
  end.

Definition fact_values (user_memory : option dict) : list string :=
  match user_memory with
  | Some m =>
      match PyDict.get "facts" m with
      | Some facts =>
          match Py.iter facts with
          | Ok l => flat_map fact_value l
          | Raise _ => []
          end
      | None => []
      end
  | None => []
  end.

(** The lowercase form of [v] occurs in the lowercase form of the text. *)
Definition referenced (text v : string) : bool :=
  PyStr.contains (PyStr.lower v) (PyStr.lower text).

Definition reference (v : string) : string := "Referenced fact: " ++ v.

Definition references (text : string) (user_memory : option dict)
  : list string :=
  map reference (filter (referenced text) (fact_values user_memory)).


Definition engineer_request (user_memory : option dict)
  : ResponseGenerationRequest :=
  {| user_message := "I'm stressed about work deadlines";
     personality := MENTOR;
     user_memory := user_memory;
     conversation_history := None;
     context := None |}.


(** The float is zero: [0.0], [-0.0], or the int [0] given for it. *)
Definition is_zero (f : pyfloat) : Prop :=
  match f with
  | FFin q => (q == 0)%Q
  | _ => False
  end.

Definition sample_env (k : string) : option string :=
  if String.eqb k "GROQ_API_KEY" then Some "secret" else None.

Definition sample_client : LLMClient.t :=
  {| LLMClient.api_key := "secret";
     LLMClient.base_url := "https://api.groq.com/openai/v1/chat/completions";
     LLMClient.default_model := "llama-3.3-70b-versatile";
     LLMClient.default_temperature := f_0_7;
     LLMClient.default_max_tokens := 1000 |}.

Definition zero_request : LLMRequest :=
  {| system_prompt := "You are terse.";
     user_prompt := "Hello";
     temperature := Some (FFin 0);
     max_tokens := Some 0;
     model := None |}.

End Notions.

(** The calls of the personality engine, by the catalogue and the
    rendering of memory values it works with. *)
Section Calls.
Variable personalities : PersonalityType -> PersonalityProfile.
Variable py_str : json -> string.
Variable llm : LLM.client.

(** The call [generate_response] makes. *)
Definition generation_call (request : ResponseGenerationRequest)
  : LLMRequest :=
  let profile := personalities (personality request) in
  {| system_prompt := profile_system_prompt profile;
     user_prompt :=
       PersonalityEngine.build_context_prompt py_str (user_message request)
         profile (user_memory request) (conversation_history request)
         (context request);
     temperature :=
       Some (PersonalityEngine.generation_temperature (personality request));
     max_tokens := Some 500;
     model := None |}.

(** The request [compare_personalities] builds for a personality. *)
Definition plain_request (user_message : string) (p : PersonalityType)
  : ResponseGenerationRequest :=
  {| user_message := user_message;
     personality := p;
     user_memory := None;
     conversation_history := None;
     context := None |}.

(** The first call of [transform_response]. *)
Definition transformation_call (request : PersonalityTransformationRequest)
  : LLMRequest :=
  let target_profile := personalities (target_personality request) in
  {| system_prompt := profile_system_prompt target_profile;
     user_prompt :=
       PersonalityEngine.build_transformation_prompt py_str
         (original_response request) target_profile (tr_user_memory request)
         (conversation_context request) (tr_user_message request);
     temperature :=
       Some (PersonalityEngine.generation_temperature
               (target_personality request));
     max_tokens := Some 500;
     model := None |}.

(** Its two auxiliary calls. *)
Definition tone_call (request : PersonalityTransformationRequest)
    (transformed : string) : LLMRequest :=
  {| system_prompt := "You are an expert in communication analysis.";
     user_prompt :=
       PersonalityEngine.analysis_prompt (original_response request)
         transformed (personalities (target_personality request));
     temperature := Some f_0_3;
     max_tokens := Some 300;
     model := None |}.

Definition explanation_call (request : PersonalityTransformationRequest)
    (transformed : string) : LLMRequest :=
  {| system_prompt := "You are an expert in personality communication.";
     user_prompt :=
       PersonalityEngine.explanation_prompt (original_response request)
         transformed (personalities (target_personality request));
     temperature := Some f_0_3;
     max_tokens := Some 200;
     model := None |}.

(** The annotations computed on the generated text. *)
Definition annotate (request : ResponseGenerationRequest) (text : string)
  : result ResponseGenerationResponse :=
  (elements <- PersonalityEngine.extract_personalization_elements text
                 (user_memory request) ;;
   references <- PersonalityEngine.extract_memory_references text
                   (user_memory request) ;;
   Ok {| response := text;
         rg_personality := personality request;
         personalization_elements := elements;
         tone_metrics :=
           PersonalityEngine.analyze_response_tone text
             (personalities (personality request));
         memory_references := references;
         generation_confidence := f_0_88 |})%result.

Definition or_placeholder {A} (r : result A) (placeholder : A) : A :=
  match r with
  | Ok a => a
  | Raise _ => placeholder
  end.

(** The record [transform_response] returns once the text is
    transformed. *)
Definition transformed_record (request : PersonalityTransformationRequest)
    (calls : list LLMRequest) (text : string)
  : PersonalityTransformationResponse :=
  let calls1 := (calls ++ [transformation_call request])%list in
  let calls2 := (calls1 ++ [tone_call request text])%list in
  {| tf_original_response := original_response request;
     transformed_response := text;
     personality_type := target_personality request;
     transformation_explanation :=
       or_placeholder (llm calls2 (explanation_call request text))
         PersonalityEngine.explanation_unavailable;
     tone_analysis :=
       or_placeholder
         (rbind (llm calls1 (tone_call request text))
                (fun a => Ok [("analysis", a)]))
         PersonalityEngine.tone_unavailable;
     confidence_score := f_0_85 |}.

(** The call made for a personality in a comparison. *)
Definition comparison_call (user_message : string) (p : PersonalityType)
  : LLMRequest :=
  generation_call (plain_request user_message p).

End Calls.

(** A reply with one good and one bad element in each list. *)
Module Sample.

(** The JSON number of a decimal literal. *)
Definition num (mant e10 : Z) : json :=
  JFloat (JsonLoads.float_literal mant e10).

Definition good_preference : json :=
  JDict [("category", JStr "lifestyle");
         ("value", JStr "enjoys coffee in the morning");
         ("confidence", num 9 (-1))].
Definition bad_preference : json :=
  JDict [("category", JStr "lifestyle"); ("value", JStr "tea");
         ("confidence", num 15 (-1))].

Definition good_pattern : json :=
  JDict [("pattern", JStr "gets anxious with deadlines");
         ("frequency", num 7 (-1));
         ("triggers", JList [JStr "deadlines"; JStr "pressure"]);
         ("intensity", JStr "medium")].
Definition negative_pattern : json :=
  JDict [("pattern", JStr "calm"); ("frequency", num (-2) (-1));
         ("intensity", JStr "low")].
Definition extreme_pattern : json :=
  JDict [("pattern", JStr "panic"); ("frequency", num 5 (-1));
         ("intensity", JStr "extreme")].

Definition good_fact : json :=
  JDict [("fact_type", JStr "professional");
         ("value", JStr "software engineer");
         ("confidence", num 95 (-2))].
Definition bad_fact : json :=
  JDict [("fact_type", JStr "location"); ("value", JStr "New York");
         ("confidence", JInt 2)].

Definition reply (patterns : list json) : json :=
  JDict [("preferences", JList [good_preference; bad_preference]);
         ("emotional_patterns", JList patterns);
         ("facts", JList [bad_fact; good_fact]);
         ("messages_analyzed", JInt 4)].

Definition memory : UserMemory.t :=
  UserMemory.mk None
    [(LIFESTYLE,
      [UserPreference.mk LIFESTYLE "enjoys coffee in the morning"
         (JsonLoads.float_literal 9 (-1)) None []])]
    [EmotionalPattern.mk "gets anxious with deadlines"
       (JsonLoads.float_literal 7 (-1))
       ["deadlines"; "pressure"] "medium" None]
    [UserFact.mk "professional" "software engineer"
       (JsonLoads.float_literal 95 (-2)) None None]
    4 "1.0".

End Sample.

(* ================================================================== *)
(** * Notions of the further properties *)

(** A completion as the endpoint returns it: one choice holding [content],
    followed by the members [more] of the body. *)
Definition completion (content : json) (more : dict) : json :=
  JDict (("choices",
          JList [JDict [("index", JInt 0);
                        ("message",
                         JDict [("role", JStr "assistant");
                                ("content", content)])]])
         :: more).

(** The content of the first choice of a completion body, when the path
    [choices], [0], [message], [content] leads to a string. *)
Definition content_at (d : dict) : option string :=
  match PyDict.get "choices" d with
  | Some (JList (JDict choice :: _)) =>
      match PyDict.get "message" choice with
      | Some (JDict message) =>
          match PyDict.get "content" message with
          | Some (JStr s) => Some s
          | _ => None
          end
      | _ => None
      end
  | _ => None
  end.

(** The [usage] member is absent, falsy, or a dictionary. *)
Definition usage_loggable (d : dict) : bool :=
  match PyDict.get "usage" d with
  | None => true
  | Some (JDict _) => true
  | Some u => negb (Py.truthy u)
  end.

(** An endpoint that answers every post with the same outcome. *)
Definition answering (o : LLMClient.http_outcome)
  : LLMClient.Payload -> LLMClient.http_outcome :=
  fun _ => o.

(** An optional string that is absent or empty. *)
Definition blank (o : option string) : Prop :=
  o = None \/ o = Some EmptyString.





Definition same_category (c : PreferenceType) (p : UserPreference.t) : bool :=
  PreferenceType_.eqb (UserPreference.category p) c.

(** The grouping [d] of the preferences [seen]: distinct categories, each
    with the preferences of that category in the order they came. *)
Definition grouped (d : list (PreferenceType * list UserPreference.t))
    (seen : list UserPreference.t) : Prop :=
  NoDup (map fst d)
  /\ (forall c ps, In (c, ps) d ->
                   ps <> [] /\ ps = filter (same_category c) seen)
  /\ (forall p, In p seen -> In (UserPreference.category p) (map fst d)).










(** The personalities a comparison goes through. *)
Definition listed (ps : option (list PersonalityType))
  : list PersonalityType :=
  match ps with
  | None => PersonalityType_.all
  | Some l => l
  end.

Definition is_str (v : json) : bool :=
  match v with JStr _ => true | _ => false end.

Definition strings_of (l : list json) : list string :=
  flat_map (fun v => match v with JStr s => [s] | _ => [] end) l.

(** A loop over [v] visits strings only; the strings it visits. *)
Definition iterates_strings (v : json) : bool :=
  match Py.iter v with
  | Ok l => forallb is_str l
  | Raise _ => false
  end.



Definition preference_mark (v : string) : string :=
  "Referenced preference: " ++ v.

(** A fact the engine can look at: no dictionary, no value, or a value
    that is a string. *)
Definition fact_ok (fact : json) : bool :=
  match fact with
  | JDict d =>
      match PyDict.get "value" d with
      | Some (JStr _) | None => true
      | Some _ => false
      end
  | _ => true
  end.

Definition preferences_ok (m : dict) : bool :=
  match PyDict.get "preferences" m with
  | Some prefs => iterates_strings prefs
  | None => true
  end.

Definition facts_ok (m : dict) : bool :=
  match PyDict.get "facts" m with
  | Some facts =>
      match Py.iter facts with
      | Ok l => forallb fact_ok l
      | Raise _ => false
      end
  | None => true
  end.

(** The memory of a request is one the engine can annotate a reply
    with. *)
Definition well_typed_memory (user_memory : option dict) : bool :=
  match user_memory with
  | Some m => preferences_ok m && facts_ok m
  | None => true
  end.





(** The personality [App.generate_response] answers with. *)
Definition normalised (personality : string) : string :=
  match App.lookup personality App.PERSONALITY_PROMPTS with
  | Some _ => personality
  | None => "professional"
  end.

(** The payloads [App.generate_response] posts for a personality. *)
Definition generation_payload (personality : string) (p : LLMClient.Payload)
  : Prop :=
  LLMClient.p_temperature p
  = (if String.eqb (normalised personality) "friend" then f_0_7 else f_0_5)
  /\ LLMClient.p_max_tokens p = 500
  /\ LLMClient.p_model p = "mixtral-8x7b-32768"
  /\ map fst (LLMClient.p_messages p) = ["system"; "user"].




(* ================================================================== *)
(** * Properties *)

(** ** Results and the call monad *)

Lemma reraise_ok {A} (wrap : exn -> exn) (r : result A) (a : A) :
  reraise wrap r = Ok a <-> r = Ok a.
Proof. destruct r; simpl; split; congruence. Qed.

Lemma rbind_ok {A B} (r : result A) (k : A -> result B) (b : B) :
  rbind r k = Ok b <-> exists a, r = Ok a /\ k a = Ok b.
Proof.
  destruct r as [a|e]; simpl; split.
  - intros H. exists a. auto.
  - intros [a' [Ha Hk]]. congruence.
  - discriminate.
  - intros [a' [Ha _]]. discriminate.
Qed.

(** ** Message formatting *)

Section FormatMessages.
Import PyStr.


End FormatMessages.




(** ** Decoding the reply *)

Lemma parse_response_ok (raw : string) (v : json) :
  MemoryExtractor.parse_response raw = Ok v
  <-> JsonLoads.loads (MemoryExtractor.clean_response raw) = Some v.
Proof.
  unfold MemoryExtractor.parse_response.
  destruct (JsonLoads.loads _); split; congruence.
Qed.


(** What [extract_memory] returns, by the reply of the client to its call. *)
Lemma extract_memory_run {P : Pydantic} (llm : LLM.client)
    (request : MemoryExtractionRequest) :
  LLM.run (MemoryExtractor.extract_memory llm request)
  = reraise MemoryExtractor.extraction_failed
      (raw <- llm [] (extraction_call request) ;;
       data <- MemoryExtractor.parse_response raw ;;
       memory <- MemoryExtractor.parse_extraction_result data (user_id request) ;;
       Ok (MemoryExtractor.enhance_memory_with_stats memory (messages request))
      )%result.
Proof.
  unfold LLM.run, MemoryExtractor.extract_memory, LLM.try_except,
    MemoryExtractor.extract_with_llm, LLM.bind, LLM.call, LLM.lift, LLM.ret,
    LLM.raise, extraction_call.
  destruct (llm [] _) as [raw|e]; simpl; [|reflexivity].
  destruct (MemoryExtractor.parse_response raw) as [data|e]; simpl;
    [|reflexivity].
  destruct (MemoryExtractor.parse_extraction_result data (user_id request));
    reflexivity.
Qed.


(** The trimming removes characters, not the fence as a word: letters of
    "json" at either end go as well. *)
Remark clean_response_by_characters :
  MemoryExtractor.clean_response "json{}" = "{}"
  /\ MemoryExtractor.clean_response "null" = "ull".
Proof. split; reflexivity. Qed.

(** ** Validation of the elements *)

Section Validation.
Context {P : Pydantic}.

Lemma in_unit_iff (f : pyfloat) :
  Field.ge0 f && Field.le1 f = true <-> in_unit f.
Proof.
  destruct f as [q|[|]|]; simpl.
  - rewrite andb_true_iff, !Qle_bool_iff. tauto.
  - split; [discriminate|tauto].
  - split; [discriminate|tauto].
  - split; [discriminate|tauto].
Qed.

Lemma unit_float_some (v : json) (f : pyfloat) :
  Field.unit_float v = Some f <-> Field.float v = Some f /\ in_unit f.
Proof.
  unfold Field.unit_float.
  destruct (Field.float v) as [g|]; [|split; [discriminate|tauto]].
  destruct (Field.ge0 g && Field.le1 g) eqn:E.
  - apply in_unit_iff in E. split.
    + intros H. inversion H; subst. auto.
    + intros [H _]. exact H.
  - split; [discriminate|]. intros [H U]. inversion H; subst.
    apply in_unit_iff in U. congruence.
Qed.

Lemma required_unit_float (k : string) (d : dict) (f : pyfloat) :
  Field.required Field.unit_float k d = Some f
  <-> Field.required Field.float k d = Some f /\ in_unit f.
Proof.
  unfold Field.required. destruct (PyDict.get k d) as [v|].
  - apply unit_float_some.
  - split; [discriminate|]. intros [H _]. discriminate.
Qed.

Lemma construct_ok {A} (validate : dict -> option A) (x : json) (a : A) :
  construct validate x = Ok a
  <-> exists d, x = JDict d /\ validate d = Some a.
Proof.
  unfold construct. split.
  - destruct x; try discriminate. destruct (validate kvs) eqn:E;
      [|discriminate]. intros H. inversion H; subst. eauto.
  - intros [d [-> H]]. now rewrite H.
Qed.

Lemma construct_rejects {A} (validate : dict -> option A) (d : dict) :
  validate d = None ->
  construct validate (JDict d) = Raise (Builtin ValidationError).
Proof. intros H. unfold construct. now rewrite H. Qed.

Lemma EmotionalPattern_frequency (x : json) (p : EmotionalPattern.t) :
  EmotionalPattern.new x = Ok p ->
  number_of "frequency" x = Some (EmotionalPattern.frequency p)
  /\ in_unit (EmotionalPattern.frequency p).
Proof.
  intros H. apply construct_ok in H. destruct H as [d [-> H]].
  unfold EmotionalPattern.validate in H.
  destruct (Field.required Field.str "pattern" d); [|discriminate].
  destruct (Field.required Field.unit_float "frequency" d) as [f|] eqn:F;
    [|discriminate].
  destruct (Field.list_str "triggers" d); [|discriminate].
  destruct (Field.required EmotionalPattern.intensity_field "intensity" d);
    [|discriminate].
  destruct (Field.optional_str "context" d); [|discriminate].
  inversion H; subst. simpl. now apply required_unit_float.
Qed.

Lemma UserPreference_confidence (x : json) (p : UserPreference.t) :
  UserPreference.new x = Ok p ->
  number_of "confidence" x = Some (UserPreference.confidence p)
  /\ in_unit (UserPreference.confidence p).
Proof.
  intros H. apply construct_ok in H. destruct H as [d [-> H]].
  unfold UserPreference.validate in H.
  destruct (Field.required PreferenceType_.validate "category" d);
    [|discriminate].
  destruct (Field.required Field.str "value" d); [|discriminate].
  destruct (Field.required Field.unit_float "confidence" d) as [f|] eqn:F;
    [|discriminate].
  destruct (Field.optional_str "context" d); [|discriminate].
  destruct (Field.list_str "examples" d); [|discriminate].
  inversion H; subst. simpl. now apply required_unit_float.
Qed.

Lemma UserFact_confidence (x : json) (p : UserFact.t) :
  UserFact.new x = Ok p ->
  number_of "confidence" x = Some (UserFact.confidence p)
  /\ in_unit (UserFact.confidence p).
Proof.
  intros H. apply construct_ok in H. destruct H as [d [-> H]].
  unfold UserFact.validate in H.
  destruct (Field.required Field.str "fact_type" d); [|discriminate].
  destruct (Field.required Field.str "value" d); [|discriminate].
  destruct (Field.required Field.unit_float "confidence" d) as [f|] eqn:F;
    [|discriminate].
  destruct (Field.optional_str "source_context" d); [|discriminate].
  destruct (Field.optional_str "temporal_relevance" d); [|discriminate].
  inversion H; subst. simpl. now apply required_unit_float.
Qed.

(** An element whose number lies outside [0, 1] is not built. *)
Lemma out_of_range_rejected {A} (new : json -> result A)
    (field : A -> pyfloat) (k : string) :
  (forall x a, new x = Ok a ->
               number_of k x = Some (field a) /\ in_unit (field a)) ->
  forall x f, number_of k x = Some f -> ~ in_unit f ->
              exists e, new x = Raise e.
Proof.
  intros Hnew x f Hf Hout. destruct (new x) as [a|e] eqn:E; [|eauto].
  destruct (Hnew x a E) as [Hn Hu]. rewrite Hf in Hn.
  inversion Hn; subst. contradiction.
Qed.

Lemma keep_valid_app {A} (new : json -> result A) (l1 l2 : list json) :
  MemoryExtractor.keep_valid new (l1 ++ l2)
  = (MemoryExtractor.keep_valid new l1
     ++ MemoryExtractor.keep_valid new l2)%list.
Proof.
  induction l1 as [|x l1 IH]; simpl; [reflexivity|].
  destruct (new x); simpl; now rewrite IH.
Qed.

Lemma keep_valid_In {A} (new : json -> result A) (l : list json) (a : A) :
  In a (MemoryExtractor.keep_valid new l)
  <-> exists x, In x l /\ new x = Ok a.
Proof.
  induction l as [|x l IH]; simpl.
  - split; [tauto|]. intros [x [[] _]].
  - destruct (new x) as [b|e] eqn:E; simpl; rewrite IH; split.
    + intros [->|[y [Hy Hn]]]; eauto.
    + intros [y [[->|Hy] Hn]]; [left; congruence|right; eauto].
    + intros [y [Hy Hn]]; eauto.
    + intros [y [[->|Hy] Hn]]; [congruence|eauto].
Qed.

Lemma keep_valid_drop {A} (new : json -> result A) (l1 l2 : list json)
    (x : json) (e : exn) :
  new x = Raise e ->
  MemoryExtractor.keep_valid new (l1 ++ x :: l2)
  = MemoryExtractor.keep_valid new (l1 ++ l2).
Proof.
  intros H. rewrite !keep_valid_app. simpl. now rewrite H.
Qed.

(** Every preference of the grouping comes from an element of the reply. *)
Lemma add_preference_In (p q : UserPreference.t) d c ps :
  In (c, ps) (MemoryExtractor.add_preference p d) -> In q ps ->
  q = p \/ exists c' ps', In (c', ps') d /\ In q ps'.
Proof.
  induction d as [|[c0 ps0] d IH]; simpl.
  - intros [H|[]] Hq. inversion H; subst. destruct Hq as [->|[]]. now left.
  - destruct (PreferenceType_.eqb (UserPreference.category p) c0).
    + intros [H|H] Hq.
      * inversion H; subst. apply in_app_or in Hq.
        destruct Hq as [Hq|[->|[]]]; [right|now left].
        exists c, ps0. auto.
      * right. exists c, ps. auto.
    + intros [H|H] Hq.
      * inversion H; subst. right. exists c, ps. auto.
      * destruct (IH H Hq) as [->|[c' [ps' [Hin Hq']]]]; [now left|].
        right. exists c', ps'. auto.
Qed.

Lemma group_preferences_In (l : list json) :
  forall d0 c ps q,
    In (c, ps)
       (fold_left (fun d pref_data =>
                     match UserPreference.new pref_data with
                     | Ok preference =>
                         MemoryExtractor.add_preference preference d
                     | Raise _ => d
                     end) l d0) ->
    In q ps ->
    (exists x, In x l /\ UserPreference.new x = Ok q)
    \/ exists c' ps', In (c', ps') d0 /\ In q ps'.
Proof.
  induction l as [|x l IH]; simpl; intros d0 c ps q Hin Hq.
  - right. eauto.
  - destruct (IH _ _ _ _ Hin Hq) as [[y [Hy Hn]]|[c' [ps' [Hd Hq']]]].
    + left. eauto.
    + destruct (UserPreference.new x) as [p|e] eqn:E.
      * destruct (add_preference_In _ _ _ _ _ Hd Hq')
          as [->|[c2 [ps2 [H2 Hq2]]]].
        -- left. eauto.
        -- right. eauto.
      * right. eauto.
Qed.

End Validation.

(** ** The memory record built from a reply *)

Section ParseExtraction.
Context {P : Pydantic}.

Lemma parse_extraction_result_ok (data : json) (uid : option string)
    (mem : UserMemory.t) :
  MemoryExtractor.parse_extraction_result data uid = Ok mem
  <-> exists prefs pats fcts raw,
      items "preferences" data = Ok prefs
      /\ items "emotional_patterns" data = Ok pats
      /\ items "facts" data = Ok fcts
      /\ Py.get "messages_analyzed" JNull data = Ok raw
      /\ mem = UserMemory.mk uid
                 (MemoryExtractor.group_preferences prefs)
                 (MemoryExtractor.keep_valid EmotionalPattern.new pats)
                 (MemoryExtractor.keep_valid UserFact.new fcts)
                 (MemoryExtractor.messages_analyzed raw) "1.0".
Proof.
  unfold MemoryExtractor.parse_extraction_result. rewrite reraise_ok.
  fold (items "preferences" data) (items "emotional_patterns" data)
       (items "facts" data).
  split.
  - intros H.
    apply rbind_ok in H. destruct H as [prefs [H1 H]].
    apply rbind_ok in H. destruct H as [pats [H2 H]].
    apply rbind_ok in H. destruct H as [fcts [H3 H]].
    apply rbind_ok in H. destruct H as [raw [H4 H]].
    exists prefs, pats, fcts, raw. repeat split; auto. congruence.
  - intros [prefs [pats [fcts [raw [H1 [H2 [H3 [H4 ->]]]]]]]].
    rewrite H1, H2, H3, H4. reflexivity.
Qed.

Lemma parse_extraction_result_items (data : json) (uid : option string) :
  MemoryExtractor.parse_extraction_result data uid
  = reraise MemoryExtractor.parse_failed
      (prefs <- items "preferences" data ;;
       pats <- items "emotional_patterns" data ;;
       fcts <- items "facts" data ;;
       raw <- Py.get "messages_analyzed" JNull data ;;
       Ok (UserMemory.mk uid
             (MemoryExtractor.group_preferences prefs)
             (MemoryExtractor.keep_valid EmotionalPattern.new pats)
             (MemoryExtractor.keep_valid UserFact.new fcts)
             (MemoryExtractor.messages_analyzed raw) "1.0"))%result.
Proof. reflexivity. Qed.

Lemma group_preferences_drop (l1 l2 : list json) (x : json) (e : exn) :
  UserPreference.new x = Raise e ->
  MemoryExtractor.group_preferences (l1 ++ x :: l2)
  = MemoryExtractor.group_preferences (l1 ++ l2).
Proof.
  intros H. unfold MemoryExtractor.group_preferences.
  rewrite !fold_left_app. simpl. now rewrite H.
Qed.

End ParseExtraction.

(** C1.  In a memory record parsed from a reply every preference and fact
    has its confidence, and every emotional pattern its frequency, within
    [0, 1]; an element of the reply whose confidence or frequency is outside
    [0, 1] is dropped on its own: the record is the one the reply gives
    without it. *)
Theorem parsed_elements_in_unit {P : Pydantic} (data : json)
    (uid : option string) (mem : UserMemory.t) :
  MemoryExtractor.parse_extraction_result data uid = Ok mem ->
  confidences_in_unit mem /\ drops_out_of_range data mem.
Proof.
  intros H. apply parse_extraction_result_ok in H.
  destruct H as [prefs [pats [fcts [raw [H1 [H2 [H3 [H4 ->]]]]]]]].
  split; [split; [|split]|split; [|split]]; simpl.
  - intros c ps p Hin Hp.
    destruct (group_preferences_In prefs [] c ps p Hin Hp)
      as [[x [_ Hx]]|[c' [ps' [[] _]]]].
    now apply UserPreference_confidence in Hx.
  - intros p Hp. apply keep_valid_In in Hp. destruct Hp as [x [_ Hx]].
    now apply EmotionalPattern_frequency in Hx.
  - intros f Hf. apply keep_valid_In in Hf. destruct Hf as [x [_ Hx]].
    now apply UserFact_confidence in Hx.
  - intros l1 x l2 Hl [f [Hf Hout]]. rewrite H1 in Hl. inversion Hl; subst.
    destruct (out_of_range_rejected _ _ _ UserPreference_confidence x f Hf Hout)
      as [e He].
    now apply group_preferences_drop with (e := e).
  - intros l1 x l2 Hl [f [Hf Hout]]. rewrite H2 in Hl. inversion Hl; subst.
    destruct (out_of_range_rejected _ _ _ EmotionalPattern_frequency x f Hf Hout)
      as [e He].
    now apply keep_valid_drop with (e := e).
  - intros l1 x l2 Hl [f [Hf Hout]]. rewrite H3 in Hl. inversion Hl; subst.
    destruct (out_of_range_rejected _ _ _ UserFact_confidence x f Hf Hout)
      as [e He].
    now apply keep_valid_drop with (e := e).
Qed.

Lemma parsed_elements_in_unit_witness :
  MemoryExtractor.parse_extraction_result (P := strict_pydantic)
    (Sample.reply [Sample.good_pattern; Sample.negative_pattern]) None
  = Ok Sample.memory
  /\ confidences_in_unit Sample.memory
  /\ drops_out_of_range (P := strict_pydantic)
       (Sample.reply [Sample.good_pattern; Sample.negative_pattern])
       Sample.memory.
Proof.
  split; [reflexivity|].
  apply (parsed_elements_in_unit (P := strict_pydantic)
           (Sample.reply [Sample.good_pattern; Sample.negative_pattern])
           None Sample.memory).
  reflexivity.
Defined.

(** ** A pattern of unknown intensity *)

Section Intensity.
Context {P : Pydantic}.

Lemma get_set_same (k : string) (v : json) (d : dict) :
  PyDict.get k (PyDict.set k v d) = Some v.
Proof.
  induction d as [|[k0 v0] d IH]; simpl.
  - now rewrite String.eqb_refl.
  - destruct (String.eqb k k0) eqn:E; simpl.
    + now rewrite String.eqb_refl.
    + now rewrite E.
Qed.

Lemma get_set_other (k k' : string) (v : json) (d : dict) :
  k <> k' -> PyDict.get k (PyDict.set k' v d) = PyDict.get k d.
Proof.
  intros Hne. apply String.eqb_neq in Hne.
  induction d as [|[k0 v0] d IH]; simpl.
  - now rewrite Hne.
  - destruct (String.eqb k' k0) eqn:E; simpl.
    + apply String.eqb_eq in E. subst k0. now rewrite Hne.
    + now rewrite IH.
Qed.

Lemma items_set_other (k k' : string) (v : json) (d : dict) :
  k <> k' -> items k (JDict (PyDict.set k' v d)) = items k (JDict d).
Proof.
  intros Hne. unfold items. simpl. now rewrite get_set_other.
Qed.

Lemma items_set_same (k : string) (l : list json) (d : dict) :
  items k (JDict (PyDict.set k (JList l) d)) = Ok l.
Proof. unfold items. simpl. now rewrite get_set_same. Qed.

Lemma get_default_set_other (k k' : string) (default v : json) (d : dict) :
  k <> k' ->
  Py.get k default (JDict (PyDict.set k' v d)) = Py.get k default (JDict d).
Proof. intros Hne. simpl. now rewrite get_set_other. Qed.

Lemma unknown_intensity_rejected (x : json) :
  (forall s, intensity_of x = Some s -> ~ In s EmotionalPattern.allowed) ->
  exists e, EmotionalPattern.new x = Raise e.
Proof.
  intros H. destruct (EmotionalPattern.new x) as [p|e] eqn:E; [|eauto].
  exfalso. apply construct_ok in E. destruct E as [d [-> E]].
  unfold EmotionalPattern.validate in E.
  destruct (Field.required Field.str "pattern" d); [|discriminate].
  destruct (Field.required Field.unit_float "frequency" d); [|discriminate].
  destruct (Field.list_str "triggers" d); [|discriminate].
  destruct (Field.required EmotionalPattern.intensity_field "intensity" d)
    as [i|] eqn:I; [|discriminate].
  clear E. simpl in H. unfold Field.required in *.
  destruct (PyDict.get "intensity" d) as [v|]; [|discriminate].
  unfold EmotionalPattern.intensity_field in I.
  destruct (Field.str v) as [s'|]; [|discriminate].
  unfold EmotionalPattern.validate_intensity in I.
  destruct (existsb (String.eqb s') EmotionalPattern.allowed) eqn:X;
    [|discriminate].
  apply existsb_exists in X. destruct X as [a [Ha Heq]].
  apply String.eqb_eq in Heq. subst a. exact (H s' eq_refl Ha).
Qed.

End Intensity.

(** C2.  When the list of emotional patterns of a reply holds an element
    whose intensity is not one of low, medium and high, that element is
    rejected and the reply is read as if the element were not there: the
    result is the one of the reply without it, and as soon as the
    preferences and the facts can be gone through, it is a record, holding
    the valid patterns that stand before and after the element. *)
Theorem unknown_intensity_dropped {P : Pydantic} (d : dict)
    (uid : option string) (l1 l2 : list json) (bad : json) :
  PyDict.get "emotional_patterns" d = Some (JList (l1 ++ bad :: l2)) ->
  (forall s, intensity_of bad = Some s -> ~ In s ["low"; "medium"; "high"]) ->
  (exists e, EmotionalPattern.new bad = Raise e)
  /\ MemoryExtractor.parse_extraction_result (JDict d) uid
     = MemoryExtractor.parse_extraction_result
         (JDict (PyDict.set "emotional_patterns" (JList (l1 ++ l2)) d)) uid
  /\ (forall prefs fcts,
      items "preferences" (JDict d) = Ok prefs ->
      items "facts" (JDict d) = Ok fcts ->
      MemoryExtractor.parse_extraction_result (JDict d) uid
      = Ok (UserMemory.mk uid
              (MemoryExtractor.group_preferences prefs)
              (MemoryExtractor.keep_valid EmotionalPattern.new l1
               ++ MemoryExtractor.keep_valid EmotionalPattern.new l2)
              (MemoryExtractor.keep_valid UserFact.new fcts)
              (MemoryExtractor.messages_analyzed
                 (get_or "messages_analyzed" JNull d))
              "1.0")).
Proof.
  intros Hget Hbad.
  destruct (unknown_intensity_rejected bad Hbad) as [e He].
  split; [eauto|].
  assert (Hpats : items "emotional_patterns" (JDict d)
                  = Ok (l1 ++ bad :: l2)%list).
  { unfold items. simpl. now rewrite Hget. }
  split.
  - rewrite !parse_extraction_result_items.
    rewrite (items_set_other "preferences"), (items_set_other "facts"),
      items_set_same, get_default_set_other by discriminate.
    rewrite Hpats. simpl.
    now rewrite (keep_valid_drop _ _ _ _ _ He).
  - intros prefs fcts Hp Hf. apply parse_extraction_result_ok.
    exists prefs, (l1 ++ bad :: l2)%list, fcts,
      (get_or "messages_analyzed" JNull d).
    repeat split; auto.
    now rewrite (keep_valid_drop _ _ _ _ _ He), keep_valid_app.
Qed.

Lemma unknown_intensity_dropped_witness :
  MemoryExtractor.parse_extraction_result (P := strict_pydantic)
    (Sample.reply [Sample.extreme_pattern; Sample.good_pattern]) None
  = Ok Sample.memory.
Proof.
  pose proof
    (unknown_intensity_dropped (P := strict_pydantic)
       [("preferences", JList [Sample.good_preference; Sample.bad_preference]);
        ("emotional_patterns",
         JList [Sample.extreme_pattern; Sample.good_pattern]);
        ("facts", JList [Sample.bad_fact; Sample.good_fact]);
        ("messages_analyzed", JInt 4)]
       None [] [Sample.good_pattern] Sample.extreme_pattern eq_refl) as H.
  destruct H as [_ [_ H]].
  - intros s Hs. inversion Hs; subst. simpl.
    intros [E|[E|[E|[]]]]; discriminate.
  - exact (H _ _ eq_refl eq_refl).
Defined.

(** ** The message count *)

(** C4.  The record [extract_memory] returns counts the messages the caller
    gave, whatever the reply reports: a reply that decodes and parses into a
    record gives that record with the count replaced.  The count read from
    the reply is the integer itself when it is one (a boolean being the
    integer 1 or 0), the length of a list, and 0 for anything else. *)
Theorem caller_message_count_wins {P : Pydantic} (llm : LLM.client)
    (request : MemoryExtractionRequest) :
  (forall mem,
      LLM.run (MemoryExtractor.extract_memory llm request) = Ok mem ->
      UserMemory.message_count mem
      = Z.of_nat (List.length (messages request)))
  /\ (forall raw data mem0,
      llm [] (extraction_call request) = Ok raw ->
      MemoryExtractor.parse_response raw = Ok data ->
      MemoryExtractor.parse_extraction_result data (user_id request) = Ok mem0 ->
      LLM.run (MemoryExtractor.extract_memory llm request)
      = Ok (UserMemory.set_message_count
              (Z.of_nat (List.length (messages request))) mem0))
  /\ (forall data uid mem0,
      MemoryExtractor.parse_extraction_result data uid = Ok mem0 ->
      exists d, data = JDict d
                /\ UserMemory.message_count mem0
                   = MemoryExtractor.messages_analyzed
                       (get_or "messages_analyzed" JNull d))
  /\ (forall n, MemoryExtractor.messages_analyzed (JInt n) = n)
  /\ (forall l, MemoryExtractor.messages_analyzed (JList l)
                = Z.of_nat (List.length l))
  /\ (forall b, MemoryExtractor.messages_analyzed (JBool b) = Z.b2z b)
  /\ (forall v, (forall n, v <> JInt n) -> (forall b, v <> JBool b) ->
                (forall l, v <> JList l) ->
                MemoryExtractor.messages_analyzed v = 0).
Proof.
  split; [|split; [|split; [|repeat split]]].
  - intros mem H. rewrite extract_memory_run in H.
    apply reraise_ok in H.
    apply rbind_ok in H. destruct H as [raw [_ H]].
    apply rbind_ok in H. destruct H as [data [_ H]].
    apply rbind_ok in H. destruct H as [mem0 [_ H]].
    inversion H; subst. reflexivity.
  - intros raw data mem0 H1 H2 H3. rewrite extract_memory_run.
    rewrite H1. simpl. rewrite H2. simpl. rewrite H3. reflexivity.
  - intros data uid mem0 H. apply parse_extraction_result_ok in H.
    destruct H as [prefs [pats [fcts [raw [_ [_ [_ [H4 ->]]]]]]]].
    destruct data; try discriminate. exists kvs. split; [reflexivity|].
    simpl in *. inversion H4; subst. reflexivity.
  - intros v Hn Hb Hl. destruct v; try reflexivity.
    + now destruct (Hb b).
    + now destruct (Hn n).
    + now destruct (Hl l).
Qed.

Lemma caller_message_count_wins_witness :
  LLM.run (MemoryExtractor.extract_memory (P := strict_pydantic)
             (replying reply_reporting_seven) two_messages)
  = Ok (empty_memory (Some "test_user_123") 2)
  /\ UserMemory.message_count (empty_memory (Some "test_user_123") 2) = 2.
Proof.
  split; [reflexivity|].
  apply (proj1 (caller_message_count_wins (P := strict_pydantic)
                  (replying reply_reporting_seven) two_messages)).
  reflexivity.
Defined.

(** ** The calls of the personality engine *)

Section EngineCalls.
Variable personalities : PersonalityType -> PersonalityProfile.
Variable py_str : json -> string.
Variable llm : LLM.client.

Lemma generate_response_run (request : ResponseGenerationRequest)
    (calls : list LLMRequest) :
  PersonalityEngine.generate_response personalities py_str llm request calls
  = (reraise PersonalityEngine.generation_failed
       (rbind (llm calls (generation_call personalities py_str request)) (annotate personalities request)),
     (calls ++ [generation_call personalities py_str request])%list).
Proof.
  unfold PersonalityEngine.generate_response, LLM.try_except, LLM.bind,
    LLM.call, LLM.lift, LLM.ret, LLM.raise, annotate.
  fold (generation_call personalities py_str request).
  destruct (llm calls (generation_call personalities py_str request)) as [text|e]; simpl;
    [|reflexivity].
  destruct (PersonalityEngine.extract_personalization_elements text
              (user_memory request)); simpl; [|reflexivity].
  destruct (PersonalityEngine.extract_memory_references text
              (user_memory request)); reflexivity.
Qed.

Lemma transform_response_run (request : PersonalityTransformationRequest)
    (calls : list LLMRequest) :
  PersonalityEngine.transform_response personalities py_str llm request calls
  = match llm calls (transformation_call personalities py_str request) with
    | Ok text =>
        (Ok (transformed_record personalities py_str llm request calls text),
         (calls ++ [transformation_call personalities py_str request; tone_call personalities request text;
                    explanation_call personalities request text])%list)
    | Raise e =>
        (Raise (PersonalityEngine.transformation_failed e),
         (calls ++ [transformation_call personalities py_str request])%list)
    end.
Proof.
  unfold PersonalityEngine.transform_response, LLM.try_except, LLM.bind,
    PersonalityEngine.analyze_tone_changes,
    PersonalityEngine.generate_transformation_explanation,
    LLM.try_except, LLM.bind, LLM.call, LLM.lift, LLM.ret, LLM.raise,
    transformed_record.
  fold (transformation_call personalities py_str request).
  destruct (llm calls (transformation_call personalities py_str request)) as [text|e]; simpl;
    [|reflexivity].
  fold (tone_call personalities request text) (explanation_call personalities request text).
  destruct (llm (calls ++ [transformation_call personalities py_str request])%list
              (tone_call personalities request text)) as [a|e1]; simpl;
    destruct (llm _ (explanation_call personalities request text)) as [x|e2]; simpl;
    rewrite <- !app_assoc; reflexivity.
Qed.

End EngineCalls.

(** ** The sampling temperature *)

(** C5.  The call [generate_response] makes to the model, and the call by
    which [transform_response] obtains the transformed text, ask for the
    temperature 0.7 when the personality is "friend" and 0.5 for every
    other personality.  They are the only calls of a generation; a
    transformation goes on with its two analysis calls, made at 0.3. *)
Theorem temperature_by_personality
    (personalities : PersonalityType -> PersonalityProfile)
    (py_str : json -> string) (llm : LLM.client) (calls : list LLMRequest) :
  (forall request,
      snd (PersonalityEngine.generate_response personalities py_str llm
             request calls)
      = (calls ++ [generation_call personalities py_str request])%list
      /\ temperature (generation_call personalities py_str request)
         = Some (match personality request with
                 | FRIEND => f_0_7
                 | _ => f_0_5
                 end))
  /\ (forall request,
      exists rest,
        snd (PersonalityEngine.transform_response personalities py_str llm
               request calls)
        = (calls ++ transformation_call personalities py_str request :: rest)%list
        /\ temperature (transformation_call personalities py_str request)
           = Some (match target_personality request with
                   | FRIEND => f_0_7
                   | _ => f_0_5
                   end)
        /\ (forall rq, In rq rest -> temperature rq = Some f_0_3)).
Proof.
  split; intros request.
  - rewrite generate_response_run. split; [reflexivity|]. simpl.
    now destruct (personality request).
  - rewrite transform_response_run.
    destruct (llm calls (transformation_call personalities py_str request))
      as [text|e]; simpl.
    + eexists. split; [reflexivity|]. split.
      * now destruct (target_personality request).
      * intros rq [<-|[<-|[]]]; reflexivity.
    + exists []. split; [reflexivity|]. split.
      * now destruct (target_personality request).
      * intros rq [].
Qed.

Lemma temperature_by_personality_witness :
  temperature (generation_call PersonalityEngine.initialize_personalities
                 no_str (engineer_request None)) = Some f_0_5
  /\ temperature (transformation_call PersonalityEngine.initialize_personalities
                    no_str sample_transformation) = Some f_0_7.
Proof.
  split.
  - exact (proj2 (proj1 (temperature_by_personality
                           PersonalityEngine.initialize_personalities no_str
                           (replying "Hello") []) (engineer_request None))).
  - destruct (proj2 (temperature_by_personality
                       PersonalityEngine.initialize_personalities no_str
                       (replying "Hello") []) sample_transformation)
      as [rest [_ [H _]]].
    exact H.
Defined.

(** ** Failures of the auxiliary calls *)

(** C8.  Once the model has given the transformed text, [transform_response]
    returns a record holding it: the tone analysis and the explanation are
    the replies of the two further calls, and where such a call fails its
    place is taken by "Tone analysis unavailable", respectively
    "Transformation explanation unavailable". *)
Theorem auxiliary_failures_recovered
    (personalities : PersonalityType -> PersonalityProfile)
    (py_str : json -> string) (llm : LLM.client)
    (request : PersonalityTransformationRequest) (calls : list LLMRequest)
    (text : string) :
  llm calls (transformation_call personalities py_str request) = Ok text ->
  let calls1 :=
    (calls ++ [transformation_call personalities py_str request])%list in
  let calls2 := (calls1 ++ [tone_call personalities request text])%list in
  exists r,
    fst (PersonalityEngine.transform_response personalities py_str llm
           request calls) = Ok r
    /\ transformed_response r = text
    /\ tone_analysis r
       = match llm calls1 (tone_call personalities request text) with
         | Ok a => [("analysis", a)]
         | Raise _ => [("analysis", "Tone analysis unavailable")]
         end
    /\ transformation_explanation r
       = match llm calls2 (explanation_call personalities request text) with
         | Ok x => x
         | Raise _ => "Transformation explanation unavailable"
         end.
Proof.
  intros H calls1 calls2. rewrite transform_response_run, H. simpl.
  eexists. split; [reflexivity|]. split; [reflexivity|]. simpl.
  fold calls1. fold calls2.
  split.
  - now destruct (llm calls1 _).
  - now destruct (llm calls2 _).
Qed.

Lemma auxiliary_failures_recovered_witness :
  exists r,
    LLM.run (PersonalityEngine.transform_response
               PersonalityEngine.initialize_personalities no_str
               (failing_after_first "Hey there!") sample_transformation) = Ok r
    /\ transformed_response r = "Hey there!"
    /\ tone_analysis r = [("analysis", "Tone analysis unavailable")]
    /\ transformation_explanation r = "Transformation explanation unavailable".
Proof.
  exact (auxiliary_failures_recovered
           PersonalityEngine.initialize_personalities no_str
           (failing_after_first "Hey there!") sample_transformation []
           "Hey there!" eq_refl).
Defined.

(** ** Comparison of personalities *)

Section Comparison.
Variable personalities : PersonalityType -> PersonalityProfile.
Variable py_str : json -> string.
Variable llm : LLM.client.

Lemma plain_generation (user_message : string) (p : PersonalityType)
    (calls : list LLMRequest) :
  PersonalityEngine.generate_response personalities py_str llm
    (plain_request user_message p) calls
  = (match llm calls (comparison_call personalities py_str user_message p) with
     | Ok text =>
         Ok {| response := text;
               rg_personality := p;
               personalization_elements := [];
               tone_metrics :=
                 PersonalityEngine.analyze_response_tone text (personalities p);
               memory_references := [];
               generation_confidence := f_0_88 |}
     | Raise e => Raise (PersonalityEngine.generation_failed e)
     end,
     (calls ++ [comparison_call personalities py_str user_message p])%list).
Proof.
  rewrite generate_response_run. unfold comparison_call.
  now destruct (llm calls _).
Qed.

Lemma generate_each_cons (user_message : string) (p : PersonalityType)
    (rest : list PersonalityType) (acc : list (PersonalityType * string))
    (calls : list LLMRequest) :
  PersonalityEngine.generate_each personalities py_str llm user_message
    (p :: rest) acc calls
  = match llm calls (comparison_call personalities py_str user_message p) with
    | Ok text =>
        PersonalityEngine.generate_each personalities py_str llm user_message
          rest (PersonalityEngine.set_response p text acc)
          (calls ++ [comparison_call personalities py_str user_message p])%list
    | Raise e =>
        (Raise (PersonalityEngine.generation_failed e),
         (calls ++ [comparison_call personalities py_str user_message p])%list)
    end.
Proof.
  simpl. unfold LLM.bind. fold (plain_request user_message p).
  rewrite plain_generation. now destruct (llm calls _).
Qed.

(** The loop does not get past a failing call. *)
Lemma generate_each_fails (user_message : string) (l1 : list PersonalityType) :
  forall p l2 acc calls e,
    llm (calls ++ map (comparison_call personalities py_str user_message) l1)%list
        (comparison_call personalities py_str user_message p) = Raise e ->
    exists e',
      fst (PersonalityEngine.generate_each personalities py_str llm
             user_message (l1 ++ p :: l2) acc calls)
      = Raise (PersonalityEngine.generation_failed e').
Proof.
  induction l1 as [|q l1 IH]; intros p l2 acc calls e H.
  - simpl app in *. rewrite app_nil_r in H. rewrite generate_each_cons, H.
    now exists e.
  - change ((q :: l1) ++ p :: l2)%list with (q :: (l1 ++ p :: l2))%list.
    rewrite generate_each_cons.
    destruct (llm calls (comparison_call personalities py_str user_message q)) as [text|e1].
    + apply IH with (e := e). simpl in H. now rewrite <- app_assoc.
    + now exists e1.
Qed.

End Comparison.

(** C7.  When the call made for one of the personalities of a comparison
    fails, [compare_personalities] raises its error: no comparison is
    returned, whatever was generated before.  With [mentor, friend] and a
    client failing on its second call the comparison fails, where a client
    that always replies gives the comparison of the two. *)
Theorem comparison_aborts_on_failure
    (personalities : PersonalityType -> PersonalityProfile)
    (py_str : json -> string) (llm : LLM.client)
    (user_message base : string) (l1 l2 : list PersonalityType)
    (p : PersonalityType) (calls : list LLMRequest) (e : exn) :
  llm (calls ++ map (comparison_call personalities py_str user_message) l1)%list
      (comparison_call personalities py_str user_message p) = Raise e ->
  (exists e',
      fst (PersonalityEngine.compare_personalities personalities py_str llm
             user_message base (Some (l1 ++ p :: l2)%list) calls)
      = Raise (PersonalityEngine.comparison_failed
                 (PersonalityEngine.generation_failed e')))
  /\ (PersonalityType_.all = (l1 ++ p :: l2)%list ->
      exists e',
        fst (PersonalityEngine.compare_personalities personalities py_str llm
               user_message base None calls)
        = Raise (PersonalityEngine.comparison_failed
                   (PersonalityEngine.generation_failed e')))
  /\ LLM.run (PersonalityEngine.compare_personalities personalities py_str
                failing_second user_message base (Some [MENTOR; FRIEND]))
     = Raise (PersonalityEngine.comparison_failed
                (PersonalityEngine.generation_failed
                   (Exception "LLM API error")))
  /\ LLM.run (PersonalityEngine.compare_personalities personalities py_str
                (replying "Hello") user_message base (Some [MENTOR; FRIEND]))
     = Ok {| pc_user_message := user_message;
             base_response := base;
             personality_responses := [(MENTOR, "Hello"); (FRIEND, "Hello")];
             comparison_analysis :=
               [("tone_variety", "high");
                ("approach_differences", "significant");
                ("length_variations", "notable");
                ("emotional_range", "wide")];
             recommendations :=
               ["Use Mentor for guidance and advice";
                "Use Friend for casual conversation";
                "Use Therapist for emotional support";
                "Use Professional for formal assistance"] |}.
Proof.
  intros H.
  assert (Hloop : forall acc, exists e',
             fst (PersonalityEngine.generate_each personalities py_str llm
                    user_message (l1 ++ p :: l2) acc calls)
             = Raise (PersonalityEngine.generation_failed e')).
  { intros acc. now apply generate_each_fails with (e := e). }
  assert (Hsome : exists e',
      fst (PersonalityEngine.compare_personalities personalities py_str llm
             user_message base (Some (l1 ++ p :: l2)%list) calls)
      = Raise (PersonalityEngine.comparison_failed
                 (PersonalityEngine.generation_failed e'))).
  { destruct (Hloop []) as [e' He']. exists e'.
    unfold PersonalityEngine.compare_personalities, LLM.try_except, LLM.bind,
      LLM.raise.
    destruct (PersonalityEngine.generate_each _ _ _ _ _ _ _) as [r calls'].
    simpl in He'. subst r. reflexivity. }
  split; [exact Hsome|].
  split.
  - intros Hall. unfold PersonalityEngine.compare_personalities in *.
    now rewrite Hall.
  - split; reflexivity.
Qed.

Lemma comparison_aborts_on_failure_witness :
  exists e',
    LLM.run (PersonalityEngine.compare_personalities
               PersonalityEngine.initialize_personalities no_str
               failing_second "I feel stuck" "Take a break."
               (Some [MENTOR; FRIEND; THERAPIST]))
    = Raise (PersonalityEngine.comparison_failed
               (PersonalityEngine.generation_failed e')).
Proof.
  exact (proj1 (comparison_aborts_on_failure
                  PersonalityEngine.initialize_personalities no_str
                  failing_second "I feel stuck" "Take a break."
                  [MENTOR] [THERAPIST] FRIEND [] _ eq_refl)).
Defined.

(** ** References to the memory *)

Section Substring.
Import PyStr.



End Substring.





(** ** The payload of a request *)

Lemma nonzeroF_false (f : pyfloat) :
  LLMClient.nonzeroF f = false <-> is_zero f.
Proof.
  destruct f as [q| |]; simpl; try (split; [discriminate|tauto]).
  rewrite negb_false_iff. apply Qeq_bool_iff.
Qed.

Lemma or_else_nonzeroF (a : option pyfloat) (b : pyfloat) :
  ~ is_zero b -> ~ is_zero (Py.or_else LLMClient.nonzeroF a b).
Proof.
  intros Hb. unfold Py.or_else.
  destruct a as [f|]; [|exact Hb].
  destruct (LLMClient.nonzeroF f) eqn:E; [|exact Hb].
  rewrite <- nonzeroF_false. congruence.
Qed.

Lemma or_else_nonzeroZ (a : option Z) (b : Z) :
  b <> 0 -> Py.or_else LLMClient.nonzeroZ a b <> 0.
Proof.
  intros Hb. unfold Py.or_else, LLMClient.nonzeroZ.
  destruct a as [n|]; [|exact Hb].
  destruct (n =? 0) eqn:E; simpl; [exact Hb|].
  now apply Z.eqb_neq.
Qed.

Lemma init_defaults (getenv : string -> option string)
    (key url : option string) (self : LLMClient.t) :
  LLMClient.init getenv key url = Ok self ->
  LLMClient.default_temperature self = f_0_7
  /\ LLMClient.default_max_tokens self = 1000.
Proof.
  unfold LLMClient.init. intros H.
  destruct (match key with
            | Some k => if PyStr.truthy k then Some k else getenv "GROQ_API_KEY"
            | None => getenv "GROQ_API_KEY"
            end) as [k|]; [|discriminate].
  destruct (PyStr.truthy k); [|discriminate].
  inversion H; subst. simpl. split; reflexivity.
Qed.

Lemma f_0_7_not_zero : ~ is_zero f_0_7.
Proof. vm_compute. discriminate. Qed.

(** C10.  A request whose temperature is 0, or whose max_tokens is 0, is
    posted with the default of the client in its place; the defaults of a
    client as [__init__] builds it are 0.7 and 1000, so that no request of
    such a client is posted with the temperature 0 or with max_tokens 0. *)
Theorem zero_falls_back_to_default (self : LLMClient.t) (rq : LLMRequest) :
  (forall f, temperature rq = Some f -> is_zero f ->
             LLMClient.p_temperature (LLMClient.payload self rq)
             = LLMClient.default_temperature self)
  /\ (max_tokens rq = Some 0 ->
      LLMClient.p_max_tokens (LLMClient.payload self rq)
      = LLMClient.default_max_tokens self)
  /\ (forall getenv key url,
      LLMClient.init getenv key url = Ok self ->
      LLMClient.default_temperature self = f_0_7
      /\ LLMClient.default_max_tokens self = 1000
      /\ ~ is_zero (LLMClient.p_temperature (LLMClient.payload self rq))
      /\ LLMClient.p_max_tokens (LLMClient.payload self rq) <> 0)
  /\ (forall post,
      LLMClient.generate_response self post rq
      = LLMClient.generate_response self
          (fun _ => post (LLMClient.payload self rq)) rq).
Proof.
  split; [|split; [|split]].
  - intros f Hf Hz. unfold LLMClient.payload. simpl. rewrite Hf.
    unfold Py.or_else. apply nonzeroF_false in Hz. now rewrite Hz.
  - intros Hm. unfold LLMClient.payload. simpl. now rewrite Hm.
  - intros getenv key url H. destruct (init_defaults _ _ _ _ H) as [Ht Hm].
    repeat split; auto.
    + unfold LLMClient.payload. simpl. apply or_else_nonzeroF.
      rewrite Ht. exact f_0_7_not_zero.
    + unfold LLMClient.payload. simpl. apply or_else_nonzeroZ.
      rewrite Hm. discriminate.
  - reflexivity.
Qed.

Lemma zero_falls_back_to_default_witness :
  LLMClient.init sample_env None None = Ok sample_client
  /\ LLMClient.p_temperature (LLMClient.payload sample_client zero_request)
     = f_0_7
  /\ LLMClient.p_max_tokens (LLMClient.payload sample_client zero_request)
     = 1000.
Proof.
  split; [reflexivity|].
  destruct (zero_falls_back_to_default sample_client zero_request)
    as [Ht [Hm _]].
  split.
  - exact (Ht (FFin 0) eq_refl (Qeq_refl 0)).
  - exact (Hm eq_refl).
Defined.

(* ================================================================== *)
(** * Further properties *)

(** ** Trimming *)

Section Strip.
Import PyStr.
Variable p : ascii -> bool.

Lemma lstrip_by_head (s : string) :
  lstrip_by p s = EmptyString
  \/ exists c r, lstrip_by p s = String c r /\ p c = false.
Proof.
  induction s as [|c s IH]; simpl; [now left|].
  destruct (p c) eqn:E; [exact IH|]. right. now exists c, s.
Qed.

Lemma rstrip_by_keep (c : ascii) (s : string) :
  p c = false -> rstrip_by p (String c s) = String c (rstrip_by p s).
Proof.
  intros H. simpl. destruct (rstrip_by p s); [now rewrite H|reflexivity].
Qed.

Lemma rstrip_by_cons (c : ascii) (s : string) :
  rstrip_by p (String c s)
  = match rstrip_by p s with
    | EmptyString => if p c then EmptyString else String c EmptyString
    | r => String c r
    end.
Proof. reflexivity. Qed.

Lemma rstrip_by_idem (s : string) :
  rstrip_by p (rstrip_by p s) = rstrip_by p s.
Proof.
  induction s as [|c s IH]; [reflexivity|].
  rewrite rstrip_by_cons. destruct (rstrip_by p s) as [|d r] eqn:E.
  - destruct (p c) eqn:Hc; [reflexivity|]. simpl. now rewrite Hc.
  - rewrite rstrip_by_cons, IH. reflexivity.
Qed.

Lemma strip_by_idem (s : string) :
  strip_by p (strip_by p s) = strip_by p s.
Proof.
  unfold strip_by.
  destruct (lstrip_by_head s) as [E|[c [r [E Hc]]]]; rewrite E.
  - reflexivity.
  - rewrite (rstrip_by_keep c r Hc). simpl lstrip_by. rewrite Hc.
    rewrite (rstrip_by_keep c _ Hc). now rewrite rstrip_by_idem.
Qed.

End Strip.

(** ** The client of the completion endpoint *)

Lemma translate_is_llm_error (e : exn) :
  exists f, LLMClient.translate e = LLMClientError f.
Proof. destruct e as [[]| | | |]; simpl; eauto. Qed.

Lemma content_of_well_formed (d : dict) (s : string) :
  content_at d = Some s ->
  LLMClient.content_of (JDict d)
  = if usage_loggable d then Ok (PyStr.strip s)
    else Raise (Builtin AttributeError).
Proof.
  unfold content_at, LLMClient.content_of, usage_loggable. simpl.
  destruct (PyDict.get "choices" d)
    as [[| | | | |[|[| | | | | |choice] rest]|]|]; try discriminate.
  simpl.
  destruct (PyDict.get "message" choice) as [[| | | | | |m]|];
    try discriminate.
  simpl.
  destruct (PyDict.get "content" m) as [[| | | |c| |]|]; try discriminate.
  intros H. injection H as ->. simpl. unfold LLMClient.log_usage. simpl.
  destruct (PyDict.get "usage" d) as [u|]; simpl; [|reflexivity].
  destruct u as [|b|n|f|t|us|u]; simpl; try reflexivity.
  - now destruct b.
  - now destruct (n =? 0).
  - destruct f as [q| |]; simpl; try reflexivity. now destruct (Qeq_bool q 0).
  - now destruct t.
  - now destruct us.
  - now destruct u.
Qed.

(** X1.  Whatever the endpoint does, [LLMClient.generate_response] raises
    nothing but an [LLMClientError]: a time-out, a refused connection, an HTTP
    status, a body of another shape and any other exception are all
    translated. *)
Theorem client_raises_only_its_own_error (self : LLMClient.t)
    (post : LLMClient.Payload -> LLMClient.http_outcome) (rq : LLMRequest)
    (e : exn) :
  LLMClient.generate_response self post rq = Raise e ->
  exists f, e = LLMClientError f.
Proof.
  unfold LLMClient.generate_response.
  destruct (post (LLMClient.payload self rq)) as [| |status|msg|data];
    try (intros H; injection H as <-; eauto).
  destruct (LLMClient.content_of data) as [t|e0]; simpl; [discriminate|].
  intros H. injection H as <-. apply translate_is_llm_error.
Qed.

Lemma client_raises_only_its_own_error_witness :
  exists f,
    LLMClient.generate_response sample_client
      (answering (LLMClient.Response (JDict []))) zero_request
    = Raise (LLMClientError f).
Proof.
  destruct (client_raises_only_its_own_error sample_client
              (answering (LLMClient.Response (JDict []))) zero_request
              (LLMClientError InvalidResponseFormat) eq_refl) as [f Hf].
  exists f. rewrite <- Hf. reflexivity.
Defined.

(** X2.  The text [LLMClient.generate_response] returns has no white space
    at either end: trimming it again changes nothing. *)
Theorem client_returns_trimmed_text (self : LLMClient.t)
    (post : LLMClient.Payload -> LLMClient.http_outcome) (rq : LLMRequest)
    (text : string) :
  LLMClient.generate_response self post rq = Ok text ->
  PyStr.strip text = text.
Proof.
  unfold LLMClient.generate_response.
  destruct (post (LLMClient.payload self rq)) as [| |status|msg|data];
    try discriminate.
  intros H. apply reraise_ok in H. unfold LLMClient.content_of in H.
  apply rbind_ok in H. destruct H as [choices [_ H]].
  apply rbind_ok in H. destruct H as [choice [_ H]].
  apply rbind_ok in H. destruct H as [message [_ H]].
  apply rbind_ok in H. destruct H as [content [_ H]].
  apply rbind_ok in H. destruct H as [u [_ H]].
  destruct content; try discriminate. injection H as <-.
  apply strip_by_idem.
Qed.

Lemma client_returns_trimmed_text_witness :
  LLMClient.generate_response sample_client
    (answering (LLMClient.Response (completion (JStr "  Hello there. ") [])))
    zero_request = Ok "Hello there."
  /\ PyStr.strip "Hello there." = "Hello there.".
Proof.
  split; [reflexivity|].
  apply (client_returns_trimmed_text sample_client
           (answering
              (LLMClient.Response (completion (JStr "  Hello there. ") [])))
           zero_request).
  reflexivity.
Defined.

(** X3.  When the body of the answer holds a string at
    choices[0].message.content, the client returns it trimmed provided the
    member [usage] is absent, falsy or a dictionary; a [usage] that is truthy
    and not a dictionary (a number, a string, a list) makes the call fail
    with "Unexpected error", although the content is there. *)
Theorem usage_must_be_a_dictionary (self : LLMClient.t)
    (post : LLMClient.Payload -> LLMClient.http_outcome) (rq : LLMRequest)
    (d : dict) (s : string) :
  post (LLMClient.payload self rq) = LLMClient.Response (JDict d) ->
  content_at d = Some s ->
  (usage_loggable d = true ->
   LLMClient.generate_response self post rq = Ok (PyStr.strip s))
  /\ (usage_loggable d = false ->
      LLMClient.generate_response self post rq
      = Raise (LLMClientError (UnexpectedError (inl AttributeError)))).
Proof.
  intros Hpost Hs. unfold LLMClient.generate_response. rewrite Hpost.
  rewrite (content_of_well_formed d s Hs).
  split; intros ->; reflexivity.
Qed.

Lemma usage_must_be_a_dictionary_witness :
  LLMClient.generate_response sample_client
    (answering (LLMClient.Response
                  (completion (JStr "Hi") [("usage", JInt 12)])))
    zero_request
  = Raise (LLMClientError (UnexpectedError (inl AttributeError))).
Proof.
  apply (proj2 (usage_must_be_a_dictionary sample_client
                  (answering (LLMClient.Response
                                (completion (JStr "Hi") [("usage", JInt 12)])))
                  zero_request _ "Hi" eq_refl eq_refl)).
  reflexivity.
Defined.

(** X4.  A body that is a dictionary without [choices] is reported as
    "Invalid response format", and so is a [choices] that is itself a
    dictionary; a body that is not a dictionary, and an empty list of
    choices, are reported as "Unexpected error". *)
Theorem malformed_body_reports (self : LLMClient.t)
    (post : LLMClient.Payload -> LLMClient.http_outcome) (rq : LLMRequest)
    (data : json) :
  post (LLMClient.payload self rq) = LLMClient.Response data ->
  (forall d, data = JDict d -> PyDict.get "choices" d = None ->
             LLMClient.generate_response self post rq
             = Raise (LLMClientError InvalidResponseFormat))
  /\ (forall d c, data = JDict d -> PyDict.get "choices" d = Some (JDict c) ->
                  LLMClient.generate_response self post rq
                  = Raise (LLMClientError InvalidResponseFormat))
  /\ (forall d, data = JDict d -> PyDict.get "choices" d = Some (JList []) ->
                LLMClient.generate_response self post rq
                = Raise (LLMClientError (UnexpectedError (inl IndexError))))
  /\ ((forall d, data <> JDict d) ->
      LLMClient.generate_response self post rq
      = Raise (LLMClientError (UnexpectedError (inl TypeError)))).
Proof.
  intros Hpost. unfold LLMClient.generate_response. rewrite Hpost.
  unfold LLMClient.content_of.
  split; [|split; [|split]].
  - intros d -> H. simpl. now rewrite H.
  - intros d c -> H. simpl. now rewrite H.
  - intros d -> H. simpl. now rewrite H.
  - intros H. destruct data; try reflexivity. now destruct (H kvs).
Qed.

Lemma malformed_body_reports_witness :
  LLMClient.generate_response sample_client
    (answering (LLMClient.Response (JDict [("choices", JList [])])))
    zero_request
  = Raise (LLMClientError (UnexpectedError (inl IndexError)))
  /\ LLMClient.generate_response sample_client
       (answering (LLMClient.Response (JList []))) zero_request
     = Raise (LLMClientError (UnexpectedError (inl TypeError))).
Proof.
  split.
  - exact (proj1 (proj2 (proj2
             (malformed_body_reports sample_client
                (answering (LLMClient.Response (JDict [("choices", JList [])])))
                zero_request _ eq_refl))) _ eq_refl eq_refl).
  - apply (proj2 (proj2 (proj2
             (malformed_body_reports sample_client
                (answering (LLMClient.Response (JList []))) zero_request
                _ eq_refl)))).
    intros d H. discriminate.
Defined.

(** X5.  [LLMClient.__init__] raises [ValueError] exactly when neither the
    argument nor the environment gives a non-empty key; a non-empty argument
    is the key of the client, and an empty or absent one leaves the key to
    the environment. *)
Theorem client_needs_a_key (getenv : string -> option string)
    (key url : option string) :
  (LLMClient.init getenv key url = Raise (Builtin ValueError)
   <-> blank key /\ blank (getenv "GROQ_API_KEY"))
  /\ (forall k, key = Some k -> k <> EmptyString ->
                exists self, LLMClient.init getenv key url = Ok self
                             /\ LLMClient.api_key self = k)
  /\ (forall k, blank key -> getenv "GROQ_API_KEY" = Some k ->
                k <> EmptyString ->
                exists self, LLMClient.init getenv key url = Ok self
                             /\ LLMClient.api_key self = k)
  /\ (forall self, LLMClient.init getenv key url = Ok self ->
                   LLMClient.api_key self <> EmptyString).
Proof.
  unfold LLMClient.init, blank.
  split; [|split; [|split]].
  - destruct key as [[|c k]|]; simpl;
      destruct (getenv "GROQ_API_KEY") as [[|c' k']|]; simpl;
      split; try discriminate; try tauto;
      intros [[H|H] [H'|H']]; discriminate.
  - intros k -> Hk. destruct k as [|c k]; [contradiction|]. simpl. eauto.
  - intros k Hb He Hk. destruct k as [|c k]; [contradiction|].
    destruct Hb as [->| ->]; simpl; rewrite He; simpl; eauto.
  - intros self. destruct key as [[|c k]|]; simpl;
      destruct (getenv "GROQ_API_KEY") as [[|c' k']|]; simpl;
      try discriminate; intros H; injection H as <-; discriminate.
Qed.

Lemma client_needs_a_key_witness :
  exists self, LLMClient.init sample_env (Some EmptyString) None = Ok self
               /\ LLMClient.api_key self = "secret".
Proof.
  apply (proj1 (proj2 (proj2
           (client_needs_a_key sample_env (Some EmptyString) None))) "secret").
  - right. reflexivity.
  - reflexivity.
  - discriminate.
Defined.

(** ** Extraction: errors and shapes of the reply *)

Section ExtractionShapes.
Context {P : Pydantic}.

Lemma extract_memory_calls (llm : LLM.client)
    (request : MemoryExtractionRequest) (calls : list LLMRequest) :
  snd (MemoryExtractor.extract_memory llm request calls)
  = (calls ++ [extraction_call request])%list.
Proof.
  unfold MemoryExtractor.extract_memory, LLM.try_except,
    MemoryExtractor.extract_with_llm, LLM.bind, LLM.call, LLM.lift, LLM.ret,
    LLM.raise.
  fold (extraction_call request).
  destruct (llm calls (extraction_call request)) as [raw|e]; simpl;
    [|reflexivity].
  destruct (MemoryExtractor.parse_response raw) as [data|e]; simpl;
    [|reflexivity].
  destruct (MemoryExtractor.parse_extraction_result data (user_id request));
    reflexivity.
Qed.






End ExtractionShapes.

(** X6.  [extract_memory] calls the model exactly once, whatever happens,
    and raises nothing but a [MemoryExtractionError] whose message starts
    with "Failed to extract memory: "; an exception of the client is the
    cause it wraps. *)
Theorem extraction_calls_once_and_wraps {P : Pydantic} (llm : LLM.client)
    (request : MemoryExtractionRequest) :
  LLM.calls_of (MemoryExtractor.extract_memory llm request)
  = [extraction_call request]
  /\ (forall e,
      LLM.run (MemoryExtractor.extract_memory llm request) = Raise e ->
      exists cause,
        e = MemoryExtractionError "Failed to extract memory: " cause)
  /\ (forall e,
      llm [] (extraction_call request) = Raise e ->
      LLM.run (MemoryExtractor.extract_memory llm request)
      = Raise (MemoryExtractionError "Failed to extract memory: " e)).
Proof.
  split; [|split].
  - unfold LLM.calls_of. now rewrite extract_memory_calls.
  - intros e. rewrite extract_memory_run.
    destruct (_ <- _ ;; _)%result as [m|e0]; simpl; [discriminate|].
    intros H. injection H as <-. now exists e0.
  - intros e H. rewrite extract_memory_run, H. reflexivity.
Qed.

Lemma extraction_calls_once_and_wraps_witness :
  LLM.run (MemoryExtractor.extract_memory (P := strict_pydantic)
             (fun _ _ => Raise (Exception "LLM API error")) two_messages)
  = Raise (MemoryExtractionError "Failed to extract memory: "
             (Exception "LLM API error")).
Proof.
  apply (proj2 (proj2 (extraction_calls_once_and_wraps (P := strict_pydantic)
                         (fun _ _ => Raise (Exception "LLM API error"))
                         two_messages))).
  reflexivity.
Defined.

(** X7.  A reply that is valid JSON but not an object (a list, a string, a
    number, true, false or null) is not read as an empty record: parsing it
    fails with "Failed to parse extraction results", and so does
    [extract_memory]. *)
Theorem reply_must_be_an_object {P : Pydantic} (data : json) :
  (forall d, data <> JDict d) ->
  (forall uid,
      MemoryExtractor.parse_extraction_result data uid
      = Raise (MemoryExtractionError "Failed to parse extraction results: "
                 (Builtin AttributeError)))
  /\ (forall llm request raw,
      llm [] (extraction_call request) = Ok raw ->
      MemoryExtractor.parse_response raw = Ok data ->
      LLM.run (MemoryExtractor.extract_memory llm request)
      = Raise (MemoryExtractionError "Failed to extract memory: "
                 (MemoryExtractionError "Failed to parse extraction results: "
                    (Builtin AttributeError)))).
Proof.
  intros Hnot.
  assert (Hparse : forall uid,
             MemoryExtractor.parse_extraction_result data uid
             = Raise (MemoryExtractor.parse_failed (Builtin AttributeError))).
  { intros uid. destruct data; try reflexivity. now destruct (Hnot kvs). }
  split; [exact Hparse|].
  intros llm request raw H1 H2. rewrite extract_memory_run, H1. simpl.
  rewrite H2. simpl. now rewrite Hparse.
Qed.

Lemma reply_must_be_an_object_witness :
  LLM.run (MemoryExtractor.extract_memory (P := strict_pydantic)
             (replying "[]") two_messages)
  = Raise (MemoryExtractionError "Failed to extract memory: "
             (MemoryExtractionError "Failed to parse extraction results: "
                (Builtin AttributeError))).
Proof.
  apply (proj2 (reply_must_be_an_object (P := strict_pydantic) (JList [])
                  (fun d H => eq_ind (JList []) (fun v => match v with
                     | JList _ => True | _ => False end) I _ H))
           (replying "[]") two_messages "[]" eq_refl eq_refl).
Defined.





(** ** Grouping of the preferences *)

Section Grouping.
Context {P : Pydantic}.

Lemma PreferenceType_eqb_eq (a b : PreferenceType) :
  PreferenceType_.eqb a b = true <-> a = b.
Proof. destruct a, b; vm_compute; split; congruence. Qed.

Lemma same_category_own (p : UserPreference.t) :
  same_category (UserPreference.category p) p = true.
Proof. now apply PreferenceType_eqb_eq. Qed.

Lemma same_category_other (c : PreferenceType) (p : UserPreference.t) :
  c <> UserPreference.category p -> same_category c p = false.
Proof.
  intros H. unfold same_category.
  destruct (PreferenceType_.eqb (UserPreference.category p) c) eqn:E; auto.
  apply PreferenceType_eqb_eq in E. congruence.
Qed.

(** Where [add_preference] puts a preference. *)
Lemma add_preference_spec (p : UserPreference.t)
    (d : list (PreferenceType * list UserPreference.t)) :
  (exists d1 ps d2,
      d = (d1 ++ (UserPreference.category p, ps) :: d2)%list
      /\ MemoryExtractor.add_preference p d
         = (d1 ++ (UserPreference.category p, (ps ++ [p])%list) :: d2)%list)
  \/ (~ In (UserPreference.category p) (map fst d)
      /\ MemoryExtractor.add_preference p d
         = (d ++ [(UserPreference.category p, [p])])%list).
Proof.
  induction d as [|[c ps] d IH]; simpl.
  - right. split; [tauto|reflexivity].
  - destruct (PreferenceType_.eqb (UserPreference.category p) c) eqn:E.
    + apply PreferenceType_eqb_eq in E. subst c. left.
      now exists [], ps, d.
    + destruct IH as [[d1 [ps' [d2 [-> Hadd]]]]|[Hnot Hadd]].
      * left. exists ((c, ps) :: d1), ps', d2. simpl. now rewrite Hadd.
      * right. split; [|now rewrite Hadd].
        intros [->|H]; [|contradiction].
        assert (PreferenceType_.eqb (UserPreference.category p)
                  (UserPreference.category p) = true)
          by now apply PreferenceType_eqb_eq.
        congruence.
Qed.

Lemma filter_none {A} (f : A -> bool) (l : list A) :
  (forall x, In x l -> f x = false) -> filter f l = [].
Proof.
  induction l as [|x l IH]; simpl; intros H; [reflexivity|].
  rewrite (H x (or_introl eq_refl)). apply IH. intros y Hy. apply H. now right.
Qed.

Lemma grouped_add (p : UserPreference.t) d seen :
  grouped d seen ->
  grouped (MemoryExtractor.add_preference p d) (seen ++ [p]).
Proof.
  intros [Hnd [Hin Hkeys]].
  destruct (add_preference_spec p d)
    as [[d1 [ps [d2 [-> ->]]]]|[Hnot ->]].
  - assert (Hmap : forall qs,
               map fst (d1 ++ (UserPreference.category p, qs) :: d2)%list
               = (map fst d1 ++ UserPreference.category p :: map fst d2)%list).
    { intros qs. now rewrite map_app. }
    rewrite Hmap in Hnd. pose proof (NoDup_remove_2 _ _ _ Hnd) as Hfresh.
    split; [now rewrite Hmap|]. split.
    + intros c qs Hc. apply in_app_or in Hc.
      rewrite filter_app. simpl.
      destruct Hc as [Hc|[Hc|Hc]].
      * assert (c <> UserPreference.category p).
        { intros ->. apply Hfresh. apply in_or_app. left.
          now apply (in_map fst) in Hc. }
        rewrite same_category_other by assumption. rewrite app_nil_r.
        apply Hin. apply in_or_app. now left.
      * injection Hc as <- <-. rewrite same_category_own.
        split; [now destruct ps|].
        f_equal. apply Hin. apply in_or_app. right. now left.
      * assert (c <> UserPreference.category p).
        { intros ->. apply Hfresh. apply in_or_app. right.
          now apply (in_map fst) in Hc. }
        rewrite same_category_other by assumption. rewrite app_nil_r.
        apply Hin. apply in_or_app. right. now right.
    + intros q Hq. rewrite Hmap. apply in_app_or in Hq.
      destruct Hq as [Hq|[<-|[]]].
      * rewrite <- (Hmap ps). now apply Hkeys.
      * apply in_or_app. right. now left.
  - split; [|split].
    + rewrite map_app. simpl. apply NoDup_app; auto.
      * constructor; [tauto|constructor].
      * intros c Hc [<-|[]]. contradiction.
    + intros c qs Hc. apply in_app_or in Hc.
      rewrite filter_app. simpl.
      destruct Hc as [Hc|[Hc|[]]].
      * assert (c <> UserPreference.category p).
        { intros ->. apply Hnot. now apply (in_map fst) in Hc. }
        rewrite same_category_other by assumption. rewrite app_nil_r.
        now apply Hin.
      * injection Hc as <- <-. rewrite same_category_own.
        split; [discriminate|].
        rewrite filter_none; [reflexivity|].
        intros q Hq. apply same_category_other. intros E.
        apply Hnot. rewrite E. now apply Hkeys.
    + intros q Hq. rewrite map_app. apply in_app_or in Hq.
      apply in_or_app. destruct Hq as [Hq|[<-|[]]].
      * left. now apply Hkeys.
      * right. now left.
Qed.

Lemma grouped_fold (l : list json) :
  forall d seen,
    grouped d seen ->
    grouped (fold_left (fun d pref_data =>
                          match UserPreference.new pref_data with
                          | Ok preference =>
                              MemoryExtractor.add_preference preference d
                          | Raise _ => d
                          end) l d)
            (seen ++ MemoryExtractor.keep_valid UserPreference.new l).
Proof.
  induction l as [|x l IH]; intros d seen H; simpl.
  - now rewrite app_nil_r.
  - destruct (UserPreference.new x) as [p|e].
    + replace (seen ++ p :: MemoryExtractor.keep_valid UserPreference.new l)%list
        with ((seen ++ [p])
              ++ MemoryExtractor.keep_valid UserPreference.new l)%list
        by now rewrite <- app_assoc.
      apply IH. now apply grouped_add.
    + now apply IH.
Qed.

End Grouping.

(** X10.  The preferences of a record are grouped under distinct
    categories; the list of a category is never empty and holds the valid
    preference elements of that category, in the order of the reply; and
    every valid preference element is found under its own category. *)
Theorem preferences_grouped_by_category {P : Pydantic} (l : list json) :
  let d := MemoryExtractor.group_preferences l in
  let valid := MemoryExtractor.keep_valid UserPreference.new l in
  NoDup (map fst d)
  /\ (forall c ps, In (c, ps) d ->
                   ps <> [] /\ ps = filter (same_category c) valid)
  /\ (forall p, In p valid ->
                exists ps, In (UserPreference.category p, ps) d /\ In p ps).
Proof.
  intros d valid.
  assert (H : grouped d ([] ++ valid)).
  { apply grouped_fold. split; [constructor|].
    split; [intros c ps []|intros p []]. }
  simpl in H. destruct H as [Hnd [Hin Hkeys]].
  split; [exact Hnd|]. split; [exact Hin|].
  intros p Hp. pose proof (Hkeys p Hp) as Hk.
  apply in_map_iff in Hk. destruct Hk as [[c ps] [Hc Hcps]]. simpl in Hc.
  subst c. exists ps. split; [exact Hcps|].
  destruct (Hin _ _ Hcps) as [_ ->].
  apply filter_In. split; [exact Hp|]. apply same_category_own.
Qed.

(** ** Cleaning of a fenced reply *)

Section StripEnds.
Import PyStr.
Variable p : ascii -> bool.














Variable q : ascii -> bool.
Hypothesis disjoint : forall c, q c = true -> p c = false.




End StripEnds.















(** ** Further properties of the personality engine *)

Lemma PersonalityType_eqb_eq (a b : PersonalityType) :
  PersonalityType_.eqb a b = true <-> a = b.
Proof. destruct a, b; vm_compute; split; congruence. Qed.

Section SetResponse.

Lemma set_response_key (p q : PersonalityType) (t : string)
    (d : list (PersonalityType * string)) :
  In q (map fst (PersonalityEngine.set_response p t d))
  <-> q = p \/ In q (map fst d).
Proof.
  induction d as [|[p' t'] d IH]; simpl.
  - intuition congruence.
  - destruct (PersonalityType_.eqb p p') eqn:E; simpl.
    + apply PersonalityType_eqb_eq in E. subst p'. intuition congruence.
    + rewrite IH. intuition congruence.
Qed.

Lemma set_response_NoDup (p : PersonalityType) (t : string)
    (d : list (PersonalityType * string)) :
  NoDup (map fst d) -> NoDup (map fst (PersonalityEngine.set_response p t d)).
Proof.
  induction d as [|[p' t'] d IH]; simpl; intros H.
  - constructor; [tauto|constructor].
  - inversion H as [|? ? Hnot Hd]; subst.
    destruct (PersonalityType_.eqb p p') eqn:E; simpl.
    + apply PersonalityType_eqb_eq in E. subst p'. now constructor.
    + constructor; [|now apply IH].
      rewrite set_response_key. intros [->|Hin]; [|contradiction].
      assert (PersonalityType_.eqb p p = true)
        by now apply PersonalityType_eqb_eq.
      congruence.
Qed.

Lemma set_response_In (p q : PersonalityType) (t s : string)
    (d : list (PersonalityType * string)) :
  NoDup (map fst d) ->
  In (q, s) (PersonalityEngine.set_response p t d) ->
  (q = p /\ s = t) \/ (q <> p /\ In (q, s) d).
Proof.
  induction d as [|[p' t'] d IH]; simpl; intros Hnd H.
  - destruct H as [H|[]]. injection H as <- <-. now left.
  - inversion Hnd as [|? ? Hnot Hd]; subst.
    destruct (PersonalityType_.eqb p p') eqn:E.
    + apply PersonalityType_eqb_eq in E. subst p'.
      destruct H as [H|H].
      * injection H as <- <-. now left.
      * right. split; [|now right].
        intros ->. apply Hnot. now apply (in_map fst) in H.
    + destruct H as [H|H].
      * injection H as <- <-. right. split; [|now left].
        intros ->.
        assert (PersonalityType_.eqb p p = true)
          by now apply PersonalityType_eqb_eq.
        congruence.
      * destruct (IH Hd H) as [?|[? ?]]; [now left|right]. split; auto.
Qed.

End SetResponse.

Section ComparisonLoop.
Variable personalities : PersonalityType -> PersonalityProfile.
Variable py_str : json -> string.
Variable llm : LLM.client.
Variable user_message : string.

#[local] Notation "'call_for'" :=
  (comparison_call personalities py_str user_message).
#[local] Notation "'loop'" :=
  (PersonalityEngine.generate_each personalities py_str llm user_message).

Lemma generate_each_ok (ps : list PersonalityType) :
  forall acc calls d calls',
    NoDup (map fst acc) ->
    loop ps acc calls = (Ok d, calls') ->
    calls' = (calls ++ map call_for ps)%list
    /\ NoDup (map fst d)
    /\ (forall p, In p (map fst d) <-> In p (map fst acc) \/ In p ps)
    /\ (forall p t, In (p, t) d ->
          (In (p, t) acc /\ ~ In p ps)
          \/ exists before after,
               ps = (before ++ p :: after)%list /\ ~ In p after
               /\ llm (calls ++ map call_for before)%list (call_for p)
                  = Ok t).
Proof.
  induction ps as [|q rest IH]; intros acc calls d calls' Hnd H.
  - injection H as <- <-. rewrite app_nil_r.
    split; [reflexivity|]. split; [exact Hnd|].
    split; [intros p; simpl; tauto|].
    intros p t Hin. left. split; [exact Hin|intros []].
  - rewrite generate_each_cons in H.
    destruct (llm calls (call_for q)) as [text|e] eqn:Hq; [|discriminate].
    apply IH in H; [|now apply set_response_NoDup].
    destruct H as [-> [Hd [Hkeys Htexts]]].
    split; [now rewrite <- app_assoc|]. split; [exact Hd|]. split.
    + intros p. rewrite Hkeys, set_response_key. simpl.
      intuition congruence.
    + intros p t Hin. destruct (Htexts p t Hin) as [[Hacc Hrest]|Hlater].
      * apply set_response_In in Hacc; [|exact Hnd].
        destruct Hacc as [[-> ->]|[Hne Hacc]].
        -- right. exists [], rest. simpl. rewrite app_nil_r. auto.
        -- left. split; [exact Hacc|]. simpl. intuition congruence.
      * right. destruct Hlater as [before [after [-> [Hafter Hcall]]]].
        exists (q :: before), after. split; [reflexivity|].
        split; [exact Hafter|].
        simpl. now rewrite <- app_assoc in Hcall.
Qed.

Lemma generate_each_raise (ps : list PersonalityType) :
  forall acc calls err calls',
    loop ps acc calls = (Raise err, calls') ->
    exists before p after e,
      ps = (before ++ p :: after)%list
      /\ llm (calls ++ map call_for before)%list (call_for p) = Raise e
      /\ err = PersonalityEngine.generation_failed e
      /\ calls' = (calls ++ map call_for before ++ [call_for p])%list
      /\ (forall earlier q later,
             before = (earlier ++ q :: later)%list ->
             exists t,
               llm (calls ++ map call_for earlier)%list (call_for q) = Ok t).
Proof.
  induction ps as [|q rest IH]; intros acc calls err calls' H.
  - discriminate.
  - rewrite generate_each_cons in H.
    destruct (llm calls (call_for q)) as [text|e] eqn:Hq.
    + apply IH in H.
      destruct H as [before [p [after [e [-> [Hcall [-> [-> Hok]]]]]]]].
      exists (q :: before), p, after, e.
      split; [reflexivity|].
      split; [simpl; now rewrite <- app_assoc in Hcall|].
      split; [reflexivity|].
      split; [simpl; now rewrite <- app_assoc|].
      intros earlier q' later E. destruct earlier as [|x earlier].
      * injection E as -> _. exists text. simpl. now rewrite app_nil_r.
      * injection E as -> ->. destruct (Hok earlier q' later eq_refl) as [t Ht].
        exists t. simpl. now rewrite <- app_assoc in Ht.
    + injection H as <- <-. exists [], q, rest, e. simpl.
      rewrite app_nil_r. repeat (split; [auto; fail|]).
      intros earlier q' later E. now destruct earlier.
Qed.

End ComparisonLoop.

(** X12.  A comparison that is returned has made one call for each listed
    personality, in the order of the list.  It reports each personality of
    the list once, also one that is listed several times; the text reported
    is the reply to the last call made for it. *)
Theorem comparison_reports_each_once
    (personalities : PersonalityType -> PersonalityProfile)
    (py_str : json -> string) (llm : LLM.client)
    (user_message base : string) (ps : option (list PersonalityType))
    (calls calls' : list LLMRequest) (c : PersonalityComparison) :
  PersonalityEngine.compare_personalities personalities py_str llm
    user_message base ps calls = (Ok c, calls') ->
  calls'
  = (calls ++ map (comparison_call personalities py_str user_message)
                  (listed ps))%list
  /\ NoDup (map fst (personality_responses c))
  /\ (forall p, In p (map fst (personality_responses c)) <-> In p (listed ps))
  /\ (forall p text,
        In (p, text) (personality_responses c) ->
        exists before after,
          listed ps = (before ++ p :: after)%list /\ ~ In p after
          /\ llm (calls ++ map (comparison_call personalities py_str
                                  user_message) before)%list
                 (comparison_call personalities py_str user_message p)
             = Ok text).
Proof.
  unfold PersonalityEngine.compare_personalities, LLM.try_except, LLM.bind,
    LLM.ret, LLM.raise.
  fold (listed ps).
  destruct (PersonalityEngine.generate_each personalities py_str llm
              user_message (listed ps) [] calls) as [[d|e] calls1] eqn:E;
    [|discriminate].
  intros H. injection H as <- <-. simpl.
  apply generate_each_ok in E; [|constructor].
  destruct E as [-> [Hd [Hkeys Htexts]]].
  split; [reflexivity|]. split; [exact Hd|]. split.
  - intros p. rewrite Hkeys. simpl. tauto.
  - intros p text Hin. destruct (Htexts p text Hin) as [[[] _]|H].
    exact H.
Qed.

Lemma comparison_reports_each_once_witness :
  exists c calls',
    PersonalityEngine.compare_personalities
      PersonalityEngine.initialize_personalities no_str (replying "Hello")
      "I feel stuck" "Take a break." (Some [MENTOR; FRIEND; MENTOR]) []
    = (Ok c, calls')
    /\ List.length calls' = 3%nat
    /\ map fst (personality_responses c) = [MENTOR; FRIEND]
    /\ NoDup (map fst (personality_responses c)).
Proof.
  eexists. eexists. split; [reflexivity|].
  split; [reflexivity|]. split; [reflexivity|].
  apply (comparison_reports_each_once
           PersonalityEngine.initialize_personalities no_str
           (replying "Hello") "I feel stuck" "Take a break."
           (Some [MENTOR; FRIEND; MENTOR]) [] _ _ eq_refl).
Defined.

(** X13.  A comparison fails only because the call made for one of the
    listed personalities failed: the calls before it had all been answered,
    the error is that call's error, wrapped by the generation and by the
    comparison, and no call is made for the personalities after it. *)
Theorem comparison_stops_at_first_failure
    (personalities : PersonalityType -> PersonalityProfile)
    (py_str : json -> string) (llm : LLM.client)
    (user_message base : string) (ps : option (list PersonalityType))
    (calls calls' : list LLMRequest) (err : exn) :
  PersonalityEngine.compare_personalities personalities py_str llm
    user_message base ps calls = (Raise err, calls') ->
  exists before p after e,
    listed ps = (before ++ p :: after)%list
    /\ llm (calls ++ map (comparison_call personalities py_str user_message)
                         before)%list
           (comparison_call personalities py_str user_message p) = Raise e
    /\ err = PersonalityEngine.comparison_failed
               (PersonalityEngine.generation_failed e)
    /\ calls'
       = (calls ++ map (comparison_call personalities py_str user_message)
                       before
                ++ [comparison_call personalities py_str user_message p])%list
    /\ (forall earlier q later,
           before = (earlier ++ q :: later)%list ->
           exists t,
             llm (calls ++ map (comparison_call personalities py_str
                                  user_message) earlier)%list
                 (comparison_call personalities py_str user_message q)
             = Ok t).
Proof.
  unfold PersonalityEngine.compare_personalities, LLM.try_except, LLM.bind,
    LLM.ret, LLM.raise.
  fold (listed ps).
  destruct (PersonalityEngine.generate_each personalities py_str llm
              user_message (listed ps) [] calls) as [[d|e0] calls1] eqn:E;
    [discriminate|].
  intros H. injection H as <- <-.
  apply generate_each_raise in E.
  destruct E as [before [p [after [e [Hps [Hcall [-> [-> Hok]]]]]]]].
  exists before, p, after, e. auto.
Qed.

Lemma comparison_stops_at_first_failure_witness :
  exists before p after e,
    [MENTOR; FRIEND; THERAPIST] = (before ++ p :: after)%list
    /\ failing_second
         ([] ++ map (comparison_call PersonalityEngine.initialize_personalities
                       no_str "I feel stuck") before)%list
         (comparison_call PersonalityEngine.initialize_personalities no_str
            "I feel stuck" p) = Raise e
    /\ List.length before = 1%nat.
Proof.
  destruct (comparison_stops_at_first_failure
              PersonalityEngine.initialize_personalities no_str
              failing_second "I feel stuck" "Take a break."
              (Some [MENTOR; FRIEND; THERAPIST]) [] _ _ eq_refl)
    as [before [p [after [e [H1 [H2 [_ [H4 _]]]]]]]].
  exists before, p, after, e. split; [exact H1|]. split; [exact H2|].
  apply (f_equal (@List.length _)) in H4. simpl in H4.
  rewrite length_app, length_map in H4. simpl in H4. lia.
Defined.

(** ** Transformation: what a failure costs *)

(** X14.  A transformation fails only when its first call fails, with that
    call's error wrapped; it has then made that one call.  Otherwise it
    returns, and has made three calls: the transformation, the tone
    analysis and the explanation, in this order, the last two on the
    transformed text. *)
Theorem transformation_fails_on_first_call_only
    (personalities : PersonalityType -> PersonalityProfile)
    (py_str : json -> string) (llm : LLM.client)
    (request : PersonalityTransformationRequest) (calls : list LLMRequest) :
  let run :=
    PersonalityEngine.transform_response personalities py_str llm request
      calls in
  let first := transformation_call personalities py_str request in
  (forall err,
      fst run = Raise err
      <-> exists e,
            llm calls first = Raise e
            /\ err = PersonalityEngine.transformation_failed e)
  /\ (forall err, fst run = Raise err -> snd run = (calls ++ [first])%list)
  /\ (forall r,
        fst run = Ok r ->
        llm calls first = Ok (transformed_response r)
        /\ snd run
           = (calls ++ [first;
                        tone_call personalities request
                          (transformed_response r);
                        explanation_call personalities request
                          (transformed_response r)])%list).
Proof.
  intros run first. unfold run, first.
  rewrite transform_response_run.
  destruct (llm calls (transformation_call personalities py_str request))
    as [text|e]; simpl.
  - split; [|split].
    + intros err. split; [discriminate|]. intros [e [H _]]. discriminate.
    + discriminate.
    + intros r H. injection H as <-. simpl. auto.
  - split; [|split].
    + intros err. split.
      * intros H. injection H as <-. now exists e.
      * intros [e' [H ->]]. injection H as <-. reflexivity.
    + reflexivity.
    + discriminate.
Qed.

(** ** Annotation of a generated reply *)

Section Annotation.
Variable text : string.

Lemma preference_elements_ok (l : list json) :
  forallb is_str l = true ->
  PersonalityEngine.preference_elements text l
  = Ok (map preference_mark (filter (referenced text) (strings_of l))).
Proof.
  induction l as [|v l IH]; [reflexivity|].
  cbn [forallb]. intros H. apply andb_true_iff in H. destruct H as [Hv Hl].
  destruct v as [| | | |s| |]; try discriminate.
  cbn [PersonalityEngine.preference_elements strings_of flat_map].
  fold (strings_of l). rewrite (IH Hl).
  change ([s] ++ strings_of l)%list with (s :: strings_of l).
  cbn [rbind filter]. fold (referenced text s).
  now destruct (referenced text s).
Qed.

Lemma preference_elements_raise (l : list json) :
  forallb is_str l = false ->
  PersonalityEngine.preference_elements text l
  = Raise (Builtin AttributeError).
Proof.
  induction l as [|v l IH]; [discriminate|].
  cbn [forallb]. intros H.
  destruct v as [| | | |s| |]; try reflexivity.
  cbn [PersonalityEngine.preference_elements].
  now rewrite (IH H).
Qed.

Lemma fact_references_typed (l : list json) :
  forallb fact_ok l = true ->
  exists refs, PersonalityEngine.fact_references text l = Ok refs.
Proof.
  induction l as [|fact l IH]; [now exists []|].
  cbn [forallb]. intros H. apply andb_true_iff in H. destruct H as [Hf Hl].
  destruct (IH Hl) as [refs Hrefs].
  destruct fact as [| | | | | |d];
    try (exists refs; exact Hrefs).
  cbn [PersonalityEngine.fact_references]. unfold fact_ok in Hf.
  destruct (PyDict.get "value" d) as [[| | | |v| |]|]; try discriminate.
  - rewrite Hrefs. cbn [rbind]. eexists. reflexivity.
  - now exists refs.
Qed.

Lemma fact_references_raise (l : list json) :
  forallb fact_ok l = false ->
  PersonalityEngine.fact_references text l = Raise (Builtin AttributeError).
Proof.
  induction l as [|fact l IH]; [discriminate|].
  cbn [forallb]. intros H.
  destruct fact as [| | | | | |d]; try exact (IH H).
  cbn [PersonalityEngine.fact_references]. unfold fact_ok in H.
  destruct (PyDict.get "value" d) as [[| | | |v| |]|]; try reflexivity.
  - now rewrite (IH H).
  - exact (IH H).
Qed.

Lemma iter_raise (v : json) (e : exn) :
  Py.iter v = Raise e -> e = Builtin TypeError.
Proof. destruct v; simpl; congruence. Qed.


Lemma personalization_elements_typed (um : option dict) :
  match um with Some m => preferences_ok m | None => true end = true ->
  exists elements,
    PersonalityEngine.extract_personalization_elements text um = Ok elements.
Proof.
  unfold PersonalityEngine.extract_personalization_elements, preferences_ok,
    iterates_strings.
  destruct um as [[|kv m]|]; [now exists []| |now exists []].
  destruct (PyDict.get "preferences" (kv :: m)) as [prefs|]; [|now exists []].
  destruct (Py.iter prefs) as [l|e]; [|discriminate].
  intros H. cbn [rbind]. rewrite (preference_elements_ok l H).
  eexists. reflexivity.
Qed.

Lemma personalization_elements_raise (m : dict) :
  preferences_ok m = false ->
  PersonalityEngine.extract_personalization_elements text (Some m)
  = Raise (Builtin AttributeError)
  \/ PersonalityEngine.extract_personalization_elements text (Some m)
     = Raise (Builtin TypeError).
Proof.
  unfold PersonalityEngine.extract_personalization_elements, preferences_ok,
    iterates_strings.
  destruct m as [|kv m]; [discriminate|].
  destruct (PyDict.get "preferences" (kv :: m)) as [prefs|]; [|discriminate].
  destruct (Py.iter prefs) as [l|e] eqn:E.
  - intros H. left. cbn [rbind]. now apply preference_elements_raise.
  - intros _. right. now rewrite (iter_raise _ _ E).
Qed.

Lemma memory_references_typed (um : option dict) :
  match um with Some m => facts_ok m | None => true end = true ->
  exists refs,
    PersonalityEngine.extract_memory_references text um = Ok refs.
Proof.
  unfold PersonalityEngine.extract_memory_references, facts_ok.
  destruct um as [[|kv m]|]; [now exists []| |now exists []].
  destruct (PyDict.get "facts" (kv :: m)) as [facts|]; [|now exists []].
  destruct (Py.iter facts) as [l|e]; [|discriminate].
  intros H. cbn [rbind]. now apply fact_references_typed.
Qed.

Lemma memory_references_raise (m : dict) :
  facts_ok m = false ->
  PersonalityEngine.extract_memory_references text (Some m)
  = Raise (Builtin AttributeError)
  \/ PersonalityEngine.extract_memory_references text (Some m)
     = Raise (Builtin TypeError).
Proof.
  unfold PersonalityEngine.extract_memory_references, facts_ok.
  destruct m as [|kv m]; [discriminate|].
  destruct (PyDict.get "facts" (kv :: m)) as [facts|]; [|discriminate].
  destruct (Py.iter facts) as [l|e] eqn:E.
  - intros H. left. cbn [rbind]. now apply fact_references_raise.
  - intros _. right. now rewrite (iter_raise _ _ E).
Qed.

End Annotation.



(** X16.  A generation returns exactly when its call is answered and the
    memory of the request is well typed: the preferences, if any, are
    visited as strings, and the facts, if any, can be iterated and those
    that are dictionaries with a value have a string for it.  With another
    memory every generation fails, after its call has been made. *)
Theorem generation_needs_well_typed_memory
    (personalities : PersonalityType -> PersonalityProfile)
    (py_str : json -> string) (llm : LLM.client)
    (request : ResponseGenerationRequest) (calls : list LLMRequest) :
  let run :=
    PersonalityEngine.generate_response personalities py_str llm request
      calls in
  let call := generation_call personalities py_str request in
  ((exists r, fst run = Ok r)
   <-> (exists text, llm calls call = Ok text)
       /\ well_typed_memory (user_memory request) = true)
  /\ (well_typed_memory (user_memory request) = false ->
      exists cause,
        run = (Raise (PersonalityEngine.generation_failed cause),
               (calls ++ [call])%list)
        /\ ((exists text, llm calls call = Ok text) ->
            cause = Builtin AttributeError \/ cause = Builtin TypeError)).
Proof.
  intros run call. unfold run, call. rewrite generate_response_run.
  cbn [fst]. unfold annotate.
  destruct (llm calls (generation_call personalities py_str request))
    as [text|e]; cbn [rbind reraise].
  - destruct (user_memory request) as [m|] eqn:Hm; cbn [well_typed_memory].
    + destruct (preferences_ok m) eqn:Hp.
      * destruct (personalization_elements_typed text (Some m) Hp)
          as [elements ->].
        cbn [rbind]. destruct (facts_ok m) eqn:Hf.
        -- destruct (memory_references_typed text (Some m) Hf) as [refs ->].
           cbn [rbind reraise andb]. split.
           ++ split; [intros _; split; [now exists text|reflexivity]|].
              intros _. eexists. reflexivity.
           ++ discriminate.
        -- cbn [andb]. split.
           ++ split.
              ** intros [r H].
                 destruct (memory_references_raise text m Hf) as [E|E];
                   rewrite E in H; discriminate.
              ** intros [_ H]. discriminate.
           ++ intros _.
              destruct (memory_references_raise text m Hf) as [E|E];
                rewrite E; cbn [rbind reraise]; eexists; split;
                try reflexivity; auto.
      * cbn [andb]. split.
        -- split.
           ++ intros [r H].
              destruct (personalization_elements_raise text m Hp) as [E|E];
                rewrite E in H; discriminate.
           ++ intros [_ H]. discriminate.
        -- intros _.
           destruct (personalization_elements_raise text m Hp) as [E|E];
             rewrite E; cbn [rbind reraise]; eexists; split;
             try reflexivity; auto.
    + cbn [PersonalityEngine.extract_personalization_elements
             PersonalityEngine.extract_memory_references rbind reraise].
      split; [|discriminate].
      split; [intros _; split; [now exists text|reflexivity]|].
      intros _. eexists. reflexivity.
  - split.
    + split; [intros [r H]; discriminate|].
      intros [[text H] _]. discriminate.
    + intros _. exists e. split; [reflexivity|].
      intros [text H]. discriminate.
Qed.

(** ** What the prompt shows of a conversation *)

Section Conversation.









End Conversation.


(** ** The services over the client *)

(** X18.  The sampling parameters the services choose reach the endpoint
    as they are, with the model of the client: a generation and a
    transformation are posted with temperature 0.7 for the friend and 0.5
    for the others and 500 tokens, the tone analysis with 0.3 and 300, the
    explanation with 0.3 and 200, the memory extraction with 0.3 and
    2000. *)
Theorem service_parameters_reach_the_endpoint (self : LLMClient.t)
    (personalities : PersonalityType -> PersonalityProfile)
    (py_str : json -> string) :
  let posted rq :=
    (LLMClient.p_temperature (LLMClient.payload self rq),
     LLMClient.p_max_tokens (LLMClient.payload self rq),
     LLMClient.p_model (LLMClient.payload self rq)) in
  let default := LLMClient.default_model self in
  (forall request,
      posted (generation_call personalities py_str request)
      = (if PersonalityType_.eqb (personality request) FRIEND
         then f_0_7 else f_0_5, 500, default))
  /\ (forall request,
        posted (transformation_call personalities py_str request)
        = (if PersonalityType_.eqb (target_personality request) FRIEND
           then f_0_7 else f_0_5, 500, default))
  /\ (forall request text,
        posted (tone_call personalities request text)
        = (f_0_3, 300, default))
  /\ (forall request text,
        posted (explanation_call personalities request text)
        = (f_0_3, 200, default))
  /\ (forall request,
        posted (extraction_call request) = (f_0_3, 2000, default)).
Proof.
  intros posted default. unfold posted, default.
  split; [|split; [|split; [|split]]].
  - intros request. unfold generation_call, LLMClient.payload,
      PersonalityEngine.generation_temperature. simpl.
    now destruct (PersonalityType_.eqb (personality request) FRIEND).
  - intros request. unfold transformation_call, LLMClient.payload,
      PersonalityEngine.generation_temperature. simpl.
    now destruct (PersonalityType_.eqb (target_personality request) FRIEND).
  - reflexivity.
  - reflexivity.
  - reflexivity.
Qed.


(** ** The first version of the service *)

Section FirstVersion.








End FirstVersion.




(** X22.  [generate_response] of the first version treats a personality
    it has no prompt for as "professional".  It consults the endpoint only
    with a payload of two messages, system and user, for 500 tokens and the
    model of the default, at temperature 0.7 for "friend" and 0.5 for the
    others.  A text it returns as generated has no white space at either
    end. *)
Theorem first_version_generation
    (post : LLMClient.Payload -> LLMClient.http_outcome)
    (py_str : json -> string) (message personality : string)
    (memory : App.MemoryData) :
  App.generate_response post py_str message personality memory
  = App.generate_response post py_str message (normalised personality) memory
  /\ (forall post',
        (forall p, generation_payload personality p -> post' p = post p) ->
        App.generate_response post' py_str message personality memory
        = App.generate_response post py_str message personality memory)
  /\ (forall text,
        App.generate_response post py_str message personality memory
        = App.Generated text ->
        PyStr.strip text = text).
Proof.
  split; [|split].
  - unfold normalised.
    destruct (App.lookup personality App.PERSONALITY_PROMPTS) eqn:E;
      [reflexivity|].
    unfold App.generate_response. rewrite E. reflexivity.
  - intros post' H. unfold App.generate_response.
    fold (normalised personality).
    destruct (App.lookup (normalised personality) App.PERSONALITY_PROMPTS)
      as [prompt|]; [|reflexivity].
    cbv zeta. unfold App.call_groq_api. rewrite H; [reflexivity|].
    repeat split.
  - intros text. unfold App.generate_response.
    destruct (App.lookup _ App.PERSONALITY_PROMPTS) as [prompt|];
      [|discriminate].
    cbv zeta. destruct (App.call_groq_api _ _ _ _) as [e|response];
      [discriminate|].
    destruct (App.content_of response) as [[| | | |s| |]|e];
      try discriminate.
    intros H. injection H as <-. apply strip_by_idem.
Qed.
